(** * Market research cycle: aggregation pipeline of ai-income-agents

    A shallow embedding of [src/utils/market_analyzer.py] (class
    [MarketAnalyzer]) and [src/agents/market_research_agent.py] (class
    [MarketResearchAgent]), and the properties of the concurrent gather,
    the combination into one bundle, the analysis and the research cycle.

    Python objects are values of [value]; a coroutine or method with effects
    is a computation of [M], a state-and-exception monad over [world], which
    holds what the code reads from outside (clock, network, event loop) and
    what it mutates (the [session] attribute, the logger). *)

From Stdlib Require Import ZArith String List Bool Lia DecimalString SpecFloat Permutation.
Import ListNotations.

Local Open Scope Z_scope.
Local Open Scope list_scope.

(** ** Python values *)

#[local] Set Warnings "-register-all".

(** The objects that flow through the pipeline: JSON payloads, and the dicts
    and lists the code builds. Every dict of the program has [str] keys; a
    dict keeps its keys in insertion order. *)
Inductive value : Type :=
| VNone
| VBool (b : bool)
| VInt (z : Z)
| VFloat (f : spec_float)
| VStr (s : string)
| VList (l : list value)
| VDict (d : list (string * value)).

Definition dict := list (string * value).

(** [d.get(k)]: the first (and only) binding of [k]. *)
Fixpoint dict_get (d : dict) (k : string) : option value :=
  match d with
  | [] => None
  | (k', v) :: d' => if String.eqb k k' then Some v else dict_get d' k
  end.

(** [d[k] = v]: an existing key keeps its position and takes the new value,
    a new key goes last. *)
Fixpoint dict_set (d : dict) (k : string) (v : value) : dict :=
  match d with
  | [] => [(k, v)]
  | (k', v') :: d' =>
      if String.eqb k k' then (k', v) :: d' else (k', v') :: dict_set d' k v
  end.

Definition keys (d : dict) : list string := map fst d.

(** Truth value of a [str]: only the empty string is false. *)
Definition str_truthy (s : string) : bool :=
  match s with
  | EmptyString => false
  | String _ _ => true
  end.

(** [str(n)] of an [int]. *)
Definition str_of_int (z : Z) : string := NilZero.string_of_int (Z.to_int z).

(** The float literal [0.0]. *)
Definition float_zero : spec_float := S754_zero false.

(** ** Exceptions and outcomes *)

(** An instance of [Exception], by what [str(e)] gives. These are the faults
    that [except Exception] catches. *)
Inductive exn : Type := Exception (message : string).

Definition str (e : exn) : string := let 'Exception m := e in m.

Inductive outcome (A : Type) : Type :=
| Ok (a : A)
| Raise (e : exn).

Arguments Ok {A} a.
Arguments Raise {A} e.

(** ** The world *)

(** What one request to an endpoint does: the transport fails, or a response
    arrives with a status and a body that [response.json()] parses or not. *)
Inductive http_outcome : Type :=
| ConnectFails (e : exn)
| Responds (status : Z) (body : outcome value).

Record response := mkResponse { status : Z; body : outcome value }.

Record world := mkWorld {
  (** successive readings of [datetime.now().isoformat()] and how many were taken *)
  clock : nat -> string;
  tick : nat;
  (** what each URL answers *)
  network : string -> http_outcome;
  (** choices of the event loop: which pending task settles next *)
  schedule : list nat;
  (** a fault delivered to the coroutine awaiting [asyncio.gather], once that
      many of its tasks have settled *)
  interrupt : option (nat * exn);
  (** every [aiohttp.ClientSession] created so far, [true] while open *)
  sessions : list bool;
  (** the attribute [MarketAnalyzer.session] *)
  self_session : option nat;
  (** messages of [logger.error] *)
  log : list string;
  (** indices of the gathered tasks, in the order they settled *)
  settled : list nat
}.

Definition with_tick (n : nat) (w : world) : world :=
  mkWorld (clock w) n (network w) (schedule w) (interrupt w) (sessions w)
          (self_session w) (log w) (settled w).

Definition with_schedule (s : list nat) (w : world) : world :=
  mkWorld (clock w) (tick w) (network w) s (interrupt w) (sessions w)
          (self_session w) (log w) (settled w).

Definition with_sessions (l : list bool) (o : option nat) (w : world) : world :=
  mkWorld (clock w) (tick w) (network w) (schedule w) (interrupt w) l o
          (log w) (settled w).

Definition with_log (l : list string) (w : world) : world :=
  mkWorld (clock w) (tick w) (network w) (schedule w) (interrupt w) (sessions w)
          (self_session w) l (settled w).

Definition with_settled (l : list nat) (w : world) : world :=
  mkWorld (clock w) (tick w) (network w) (schedule w) (interrupt w) (sessions w)
          (self_session w) (log w) l.

(** ** Computations *)

Definition M (A : Type) : Type := world -> outcome A * world.

Definition ret {A} (a : A) : M A := fun w => (Ok a, w).

Definition raise {A} (e : exn) : M A := fun w => (Raise e, w).

Definition bind {A B} (m : M A) (k : A -> M B) : M B :=
  fun w =>
    match m w with
    | (Ok a, w') => k a w'
    | (Raise e, w') => (Raise e, w')
    end.

Declare Scope py_scope.
Delimit Scope py_scope with py.
Notation "x <- m ;; k" := (bind m (fun x => k))
  (at level 61, m at next level, right associativity) : py_scope.
Notation "m ;; k" := (bind m (fun _ => k))
  (at level 61, right associativity) : py_scope.
Local Open Scope py_scope.

(** [try: m except Exception as e: handler(e)] *)
Definition try_except {A} (m : M A) (handler : exn -> M A) : M A :=
  fun w =>
    match m w with
    | (Ok a, w') => (Ok a, w')
    | (Raise e, w') => handler e w'
    end.

(** [try: m finally: cleanup]: the cleanup runs on both exits; its own fault,
    if any, replaces the outcome of [m]. *)
Definition try_finally {A} (m : M A) (cleanup : M unit) : M A :=
  fun w =>
    let '(r, w') := m w in
    match cleanup w' with
    | (Ok _, w'') => (r, w'')
    | (Raise e, w'') => (Raise e, w'')
    end.

Definition lift {A} (r : outcome A) : M A := fun w => (r, w).

(** [datetime.now().isoformat()] *)
Definition datetime_now_isoformat : M value :=
  fun w => (Ok (VStr (clock w (tick w))), with_tick (S (tick w)) w).

(** [d[k]] on a dict of strings; a missing key is a [KeyError], whose [str]
    is the quoted key. *)
Definition getitem (d : list (string * string)) (k : string) : M string :=
  match find (fun kv => String.eqb k (fst kv)) d with
  | Some (_, v) => ret v
  | None => raise (Exception (String.append "'" (String.append k "'")))
  end.

(** [self.session = aiohttp.ClientSession()] *)
Definition ClientSession : M unit :=
  fun w =>
    (Ok tt, with_sessions (sessions w ++ [true]) (Some (length (sessions w))) w).

(** Whether [self.session] is a session that is still open. *)
Definition session_open (w : world) : bool :=
  match self_session w with
  | Some i => nth i (sessions w) false
  | None => false
  end.

(** [self.session.get(url)], entered with [async with]: an attribute error
    while [session] is [None], a runtime error on a closed session, otherwise
    what the network does. *)
Definition session_get (url : string) : M response :=
  fun w =>
    match self_session w with
    | None => (Raise (Exception "'NoneType' object has no attribute 'get'"), w)
    | Some i =>
        if nth i (sessions w) false then
          match network w url with
          | ConnectFails e => (Raise e, w)
          | Responds st b => (Ok (mkResponse st b), w)
          end
        else (Raise (Exception "Session is closed"), w)
    end.

(** [await response.json()] *)
Definition response_json (r : response) : M value := lift (body r).

Fixpoint set_nth {A} (i : nat) (x : A) (l : list A) : list A :=
  match l, i with
  | [], _ => []
  | _ :: l', O => x :: l'
  | y :: l', S i' => y :: set_nth i' x l'
  end.

(** [await self.session.close()] *)
Definition session_close : M unit :=
  fun w =>
    match self_session w with
    | None => (Raise (Exception "'NoneType' object has no attribute 'close'"), w)
    | Some i => (Ok tt, with_sessions (set_nth i false (sessions w)) (Some i) w)
    end.

(** Modelled from the spec: [self.logger] is set up by [BaseAgent], which is
    not among the sources; logging is scaffolding around the core, taken here
    as recording the message. *)
Definition logger_error (msg : string) : M unit :=
  fun w => (Ok tt, with_log (log w ++ [msg]) w).

(** ** asyncio.gather *)

(** A gathered task is pending until the event loop lets it run to its end;
    then it has settled with its result. *)
Inductive cell (A : Type) : Type :=
| Pending (t : M A)
| Settled (a : A).

Arguments Pending {A} t.
Arguments Settled {A} a.

Fixpoint pending_count {A} (cells : list (cell A)) : nat :=
  match cells with
  | [] => O
  | Pending _ :: rest => S (pending_count rest)
  | Settled _ :: rest => pending_count rest
  end.

Fixpoint settled_count {A} (cells : list (cell A)) : nat :=
  match cells with
  | [] => O
  | Pending _ :: rest => settled_count rest
  | Settled _ :: rest => S (settled_count rest)
  end.

Fixpoint results_of {A} (cells : list (cell A)) : list A :=
  match cells with
  | [] => []
  | Pending _ :: rest => results_of rest
  | Settled a :: rest => a :: results_of rest
  end.

Definition mark_settled (i : nat) : M unit :=
  fun w => (Ok tt, with_settled (settled w ++ [i]) w).

(** The event loop picks one of the [n] pending tasks. *)
Definition next_pick (n : nat) : M nat :=
  fun w =>
    match schedule w with
    | [] => (Ok O, w)
    | p :: rest => (Ok (Nat.modulo p n), with_schedule rest w)
    end.

(** Runs the [k]-th pending task to its end; [i] is the index of the first cell. *)
Fixpoint settle_nth {A} (k i : nat) (cells : list (cell A)) : M (list (cell A)) :=
  match cells with
  | [] => ret []
  | Settled a :: rest =>
      rest' <- settle_nth k (S i) rest;;
      ret (Settled a :: rest')
  | Pending t :: rest =>
      match k with
      | O =>
          a <- t;;
          mark_settled i;;
          ret (Settled a :: rest)
      | S k' =>
          rest' <- settle_nth k' (S i) rest;;
          ret (Pending t :: rest')
      end
  end.

Definition check_interrupt (done : nat) : M unit :=
  fun w =>
    match interrupt w with
    | Some (n, e) => if Nat.eqb n done then (Raise e, w) else (Ok tt, w)
    | None => (Ok tt, w)
    end.

(** One round per task: each round lets one pending task settle. *)
Fixpoint event_loop {A} (rounds : nat) (cells : list (cell A)) : M (list (cell A)) :=
  match rounds with
  | O => ret cells
  | S rounds' =>
      check_interrupt (settled_count cells);;
      k <- next_pick (pending_count cells);;
      cells' <- settle_nth k O cells;;
      event_loop rounds' cells'
  end.

(** [await asyncio.gather] over the tasks: they run concurrently and settle in
    an order the event loop chooses; the results come back in the order of
    the tasks. The first exception of a task is raised to the awaiting
    coroutine at once. *)
Definition asyncio_gather {A} (tasks : list (M A)) : M (list A) :=
  cells <- event_loop (length tasks) (map Pending tasks);;
  check_interrupt (settled_count cells);;
  ret (results_of cells).

(** ** MarketAnalyzer *)

Module MarketAnalyzer.

(** The dict a fetcher returns and [_combine_data] reads, by the four keys
    it can hold; [None] is a key that the dict does not have. The tag under
    ['source'] is a [str] wherever the program builds one. *)
Record SourceResult := mkSourceResult {
  source : option string;
  data : option value;
  error : option value;
  timestamp : option value
}.

Definition api_endpoints : list (string * string) :=
  [ ("trends", "https://api.example.com/trends");
    ("competitors", "https://api.example.com/competitors");
    ("market_data", "https://api.example.com/market-data") ]%string.

Definition _gather_industry_trends : M SourceResult :=
  try_except
    (url <- getitem api_endpoints "trends";;
     response <- session_get url;;
     if status response =? 200 then
       payload <- response_json response;;
       now <- datetime_now_isoformat;;
       ret {| source := Some "industry_trends"%string;
              data := Some payload;
              error := None;
              timestamp := Some now |}
     else
       now <- datetime_now_isoformat;;
       ret {| source := Some "industry_trends"%string;
              data := None;
              error := Some (VStr (String.append "Failed to fetch data: "
                                                 (str_of_int (status response))));
              timestamp := Some now |})
    (fun e =>
       now <- datetime_now_isoformat;;
       ret {| source := Some "industry_trends"%string;
              data := None;
              error := Some (VStr (str e));
              timestamp := Some now |}).

Definition _gather_competitor_data : M SourceResult :=
  try_except
    (url <- getitem api_endpoints "competitors";;
     response <- session_get url;;
     if status response =? 200 then
       payload <- response_json response;;
       now <- datetime_now_isoformat;;
       ret {| source := Some "competitor_data"%string;
              data := Some payload;
              error := None;
              timestamp := Some now |}
     else
       now <- datetime_now_isoformat;;
       ret {| source := Some "competitor_data"%string;
              data := None;
              error := Some (VStr (String.append "Failed to fetch data: "
                                                 (str_of_int (status response))));
              timestamp := Some now |})
    (fun e =>
       now <- datetime_now_isoformat;;
       ret {| source := Some "competitor_data"%string;
              data := None;
              error := Some (VStr (str e));
              timestamp := Some now |}).

Definition _gather_market_demands : M SourceResult :=
  try_except
    (url <- getitem api_endpoints "market_data";;
     response <- session_get url;;
     if status response =? 200 then
       payload <- response_json response;;
       now <- datetime_now_isoformat;;
       ret {| source := Some "market_demands"%string;
              data := Some payload;
              error := None;
              timestamp := Some now |}
     else
       now <- datetime_now_isoformat;;
       ret {| source := Some "market_demands"%string;
              data := None;
              error := Some (VStr (String.append "Failed to fetch data: "
                                                 (str_of_int (status response))));
              timestamp := Some now |})
    (fun e =>
       now <- datetime_now_isoformat;;
       ret {| source := Some "market_demands"%string;
              data := None;
              error := Some (VStr (str e));
              timestamp := Some now |}).

Definition _gather_social_media_trends : M SourceResult :=
  now <- datetime_now_isoformat;;
  ret {| source := Some "social_media"%string;
         data := Some (VDict [("trends"%string, VList [])]);
         error := None;
         timestamp := Some now |}.

(** The entry that [_combine_data] stores for one result:
    [result.get('data', {})], [result.get('error')], [result.get('timestamp')]. *)
Definition entry_of (result : SourceResult) : value :=
  VDict [ ("data"%string, match data result with Some d => d | None => VDict [] end);
          ("error"%string, match error result with Some e => e | None => VNone end);
          ("timestamp"%string, match timestamp result with Some t => t | None => VNone end) ].

(** One turn of the loop of [_combine_data] on the dict under ['sources']:
    [source = result.get('source')], and [if source:] holds for a tag that is
    there and not empty. *)
Definition combine_step (sources : dict) (result : SourceResult) : dict :=
  match source result with
  | Some tag => if str_truthy tag then dict_set sources tag (entry_of result) else sources
  | None => sources
  end.

Definition _combine_data (results : list SourceResult) : M value :=
  now <- datetime_now_isoformat;;
  ret (VDict [ ("timestamp"%string, now);
               ("sources"%string, VDict (fold_left combine_step results [])) ]).

Definition gather_data : M value :=
  ClientSession;;
  try_finally
    (let tasks := [ _gather_industry_trends;
                    _gather_competitor_data;
                    _gather_market_demands;
                    _gather_social_media_trends ] in
     results <- asyncio_gather tasks;;
     _combine_data results)
    session_close.

(** The analysis facets and the recommendation step are methods that
    [analyze_data] calls on [self]; their bodies are the pluggable part. *)
Record Methods := mkMethods {
  _analyze_trends : value -> M value;
  _analyze_competitors : value -> M value;
  _identify_opportunities : value -> M value;
  _assess_risks : value -> M value;
  _analyze_sentiment : value -> M value;
  _assess_growth_potential : value -> M value;
  _generate_recommendations : value -> M value
}.

(** The methods as [MarketAnalyzer] defines them. *)
Definition methods : Methods := {|
  _analyze_trends := fun _ =>
    ret (VDict [ ("emerging_trends"%string, VList []);
                 ("declining_trends"%string, VList []);
                 ("stable_trends"%string, VList []) ]);
  _analyze_competitors := fun _ =>
    ret (VDict [ ("market_leaders"%string, VList []);
                 ("emerging_competitors"%string, VList []);
                 ("competitive_advantages"%string, VDict []) ]);
  _identify_opportunities := fun _ => ret (VList []);
  _assess_risks := fun _ => ret (VList []);
  _analyze_sentiment := fun _ =>
    ret (VDict [ ("overall"%string, VFloat float_zero);
                 ("by_sector"%string, VDict []);
                 ("by_product"%string, VDict []) ]);
  _assess_growth_potential := fun _ =>
    ret (VDict [ ("short_term"%string, VDict []);
                 ("medium_term"%string, VDict []);
                 ("long_term"%string, VDict []) ]);
  _generate_recommendations := fun _ => ret (VList [])
|}.

(** The dict display under [analysis]: the six facets, evaluated in order. *)
Definition analysis_of (self : Methods) (data : value) : M value :=
  market_trends <- _analyze_trends self data;;
  competitor_analysis <- _analyze_competitors self data;;
  opportunity_areas <- _identify_opportunities self data;;
  risk_factors <- _assess_risks self data;;
  market_sentiment <- _analyze_sentiment self data;;
  growth_potential <- _assess_growth_potential self data;;
  ret (VDict [ ("market_trends"%string, market_trends);
               ("competitor_analysis"%string, competitor_analysis);
               ("opportunity_areas"%string, opportunity_areas);
               ("risk_factors"%string, risk_factors);
               ("market_sentiment"%string, market_sentiment);
               ("growth_potential"%string, growth_potential) ]).

(** The returned dict display: timestamp, analysis, recommendations. *)
Definition report_of (self : Methods) (analysis : value) : M value :=
  now <- datetime_now_isoformat;;
  recommendations <- _generate_recommendations self analysis;;
  ret (VDict [ ("timestamp"%string, now);
               ("analysis"%string, analysis);
               ("recommendations"%string, recommendations) ]).

Definition analyze_data (self : Methods) (data : value) : M value :=
  try_except
    (analysis <- analysis_of self data;;
     report_of self analysis)
    (fun e =>
       raise (Exception (String.append "Error analyzing market data: " (str e)))).

End MarketAnalyzer.

(** ** TrendDetector *)

(** [src/utils/trend_detector.py] is not among the sources. The agent uses two
    methods of it: trends from a bundle, opportunities from trends. *)
Record TrendDetector := mkTrendDetector {
  detect_trends : value -> M (list value);
  identify_opportunities : list value -> M (list value)
}.

(** Modelled from the spec: [TrendDetector.identify_opportunities], missing
    from the sources, is a pure function of its input sequence that derives
    opportunity records from the trends. It starts from no opportunity and
    visits the trends in order; [visit] is the rule that extends the
    opportunities found so far with those of one more trend. *)
Definition identify_opportunities_spec
  (visit : list value -> value -> list value) (trends : list value) : list value :=
  fold_left visit trends [].

Definition spec_detector (detect : value -> M (list value))
  (visit : list value -> value -> list value) : TrendDetector := {|
  detect_trends := detect;
  identify_opportunities := fun trends => ret (identify_opportunities_spec visit trends)
|}.

(** ** MarketResearchAgent *)

Module MarketResearchAgent.

(** The five stages that [run] calls on [self]. *)
Record Stages := mkStages {
  _gather_market_data : M value;
  _analyze_market_data : value -> M value;
  _detect_trends : value -> M (list value);
  _identify_opportunities : list value -> M (list value);
  _generate_insights : value -> list value -> M value
}.

Definition run (self : Stages) : M value :=
  try_except
    (market_data <- _gather_market_data self;;
     market_analysis <- _analyze_market_data self market_data;;
     trends <- _detect_trends self market_data;;
     opportunities <- _identify_opportunities self trends;;
     insights <- _generate_insights self market_analysis trends;;
     ret (VDict [ ("status"%string, VStr "success");
                  ("market_analysis"%string, market_analysis);
                  ("trends"%string, VList trends);
                  ("opportunities"%string, VList opportunities);
                  ("insights"%string, insights) ]))
    (fun e =>
       logger_error (String.append "Error in market research: " (str e));;
       ret (VDict [ ("status"%string, VStr "error");
                    ("error"%string, VStr (str e)) ])).

Definition _extract_key_findings (analysis : value) : value := VList [].

Definition _generate_recommendations (trends : list value) : value := VList [].

Definition _assess_risks (analysis : value) (trends : list value) : value := VDict [].

(** The stages as [MarketResearchAgent] defines them, over its two
    collaborators [market_analyzer] and [trend_detector]. *)
Definition stages (market_analyzer : MarketAnalyzer.Methods)
  (trend_detector : TrendDetector) : Stages := {|
  _gather_market_data := MarketAnalyzer.gather_data;
  _analyze_market_data := MarketAnalyzer.analyze_data market_analyzer;
  _detect_trends := detect_trends trend_detector;
  _identify_opportunities := identify_opportunities trend_detector;
  _generate_insights := fun analysis trends =>
    ret (VDict [ ("key_findings"%string, _extract_key_findings analysis);
                 ("recommendations"%string, _generate_recommendations trends);
                 ("risk_assessment"%string, _assess_risks analysis trends) ])
|}.

End MarketResearchAgent.

(** ** Vocabulary of the statements *)

Section Vocabulary.

Import MarketAnalyzer.

(** The three fetchers that go to the network, with the tag each one puts on
    its result and the endpoint each one requests. *)
Inductive fetcher : Type := IndustryTrends | CompetitorData | MarketDemands.

Definition fetch (f : fetcher) : M MarketAnalyzer.SourceResult :=
  match f with
  | IndustryTrends => MarketAnalyzer._gather_industry_trends
  | CompetitorData => MarketAnalyzer._gather_competitor_data
  | MarketDemands => MarketAnalyzer._gather_market_demands
  end.

Definition tag_of (f : fetcher) : string :=
  match f with
  | IndustryTrends => "industry_trends"
  | CompetitorData => "competitor_data"
  | MarketDemands => "market_demands"
  end.

Definition url_of (f : fetcher) : string :=
  match f with
  | IndustryTrends => "https://api.example.com/trends"
  | CompetitorData => "https://api.example.com/competitors"
  | MarketDemands => "https://api.example.com/market-data"
  end.

(** The configured sources, in the order [gather_data] lists their tasks. *)
Definition configured_sources : list string :=
  [ "industry_trends"; "competitor_data"; "market_demands"; "social_media" ]%string.


(** What a fetcher captures from the network once its session is open. *)
Definition captured (w : world) (url : string) (r : SourceResult) : Prop :=
  (forall e, network w url = ConnectFails e ->
     data r = None /\ error r = Some (VStr (str e))) /\
  (forall st b, network w url = Responds st b -> st <> 200 ->
     data r = None /\
     error r = Some (VStr (String.append "Failed to fetch data: " (str_of_int st)))) /\
  (forall e, network w url = Responds 200 (Raise e) ->
     data r = None /\ error r = Some (VStr (str e))) /\
  (forall payload, network w url = Responds 200 (Ok payload) ->
     data r = Some payload /\ error r = None).

(** What a task or the event loop leaves alone: everything but the count of
    clock readings, the rest of the schedule and the record of settlements. *)
Definition frame (w w' : world) : Prop :=
  clock w' = clock w /\ network w' = network w /\ interrupt w' = interrupt w /\
  sessions w' = sessions w /\ self_session w' = self_session w /\ log w' = log w.

(** A task that always returns, reads the clock once and touches nothing else. *)
Definition quiet {A} (t : M A) : Prop :=
  forall w, exists a, t w = (Ok a, with_tick (S (tick w)) w).

(** [a] is the result of task [t] in a world that [w0] frames and where the
    clock is at one of the [n] readings that follow those of [w0]. *)
Definition settles_in {A} (w0 : world) (n : nat) (t : M A) (a : A) : Prop :=
  exists w, frame w0 w /\ (tick w0 <= tick w < tick w0 + n)%nat /\ fst (t w) = Ok a.

Definition cell_of {A} (w0 : world) (n : nat) (t : M A) (c : cell A) : Prop :=
  c = Pending t \/ exists a, c = Settled a /\ settles_in w0 n t a.

(** Indices of the pending cells, [i] being the index of the first cell. *)
Fixpoint pending_from {A} (i : nat) (cells : list (cell A)) : list nat :=
  match cells with
  | [] => []
  | Pending _ :: rest => i :: pending_from (S i) rest
  | Settled _ :: rest => pending_from (S i) rest
  end.

(** The session that [gather_data] opened in [w] is closed in [w'], and it is
    still the one under [self.session]. *)
Definition released (w w' : world) : Prop :=
  sessions w' = sessions w ++ [false] /\
  self_session w' = Some (length (sessions w)) /\
  session_open w' = false.

(** The world right after [self.session = aiohttp.ClientSession()]. *)
Definition opened (w : world) : world :=
  with_sessions (sessions w ++ [true]) (Some (length (sessions w))) w.

(** [v[k]] on a value that is a dict. *)
Definition field (v : value) (k : string) : option value :=
  match v with
  | VDict d => dict_get d k
  | _ => None
  end.

(** Whether the request of fetcher [f] comes back without a payload: the
    transport fails, the status is not 200, or the body does not parse. *)
Definition fetch_fails (w : world) (f : fetcher) : bool :=
  match network w (url_of f) with
  | ConnectFails _ => true
  | Responds st (Ok _) => negb (st =? 200)
  | Responds st (Raise _) => true
  end.

Definition all_fetches_fail (w : world) : bool :=
  fetch_fails w IndustryTrends && fetch_fails w CompetitorData && fetch_fails w MarketDemands.

(** The entry of a bundle under one source tag. *)
Definition source_entry (bundle : value) (tag : string) : option value :=
  match field bundle "sources" with
  | Some srcs => field srcs tag
  | None => None
  end.

(** The six facet calls of [analyze_data], in the order it makes them. *)
Definition facet_calls (self : MarketAnalyzer.Methods) (data : value) : list (M value) :=
  [ MarketAnalyzer._analyze_trends self data;
    MarketAnalyzer._analyze_competitors self data;
    MarketAnalyzer._identify_opportunities self data;
    MarketAnalyzer._assess_risks self data;
    MarketAnalyzer._analyze_sentiment self data;
    MarketAnalyzer._assess_growth_potential self data ].

(** The first fault of a sequence of calls, and the world it leaves. *)
Fixpoint first_fault {A} (calls : list (M A)) (w : world) : option (exn * world) :=
  match calls with
  | [] => None
  | call :: rest =>
      match call w with
      | (Ok _, w') => first_fault rest w'
      | (Raise e, w') => Some (e, w')
      end
  end.

(** The analysis when no source has anything to say: every facet at its
    empty shape, the sentiment at zero. *)
Definition degraded_analysis : value :=
  VDict
    [ ("market_trends"%string,
       VDict [ ("emerging_trends"%string, VList []);
               ("declining_trends"%string, VList []);
               ("stable_trends"%string, VList []) ]);
      ("competitor_analysis"%string,
       VDict [ ("market_leaders"%string, VList []);
               ("emerging_competitors"%string, VList []);
               ("competitive_advantages"%string, VDict []) ]);
      ("opportunity_areas"%string, VList []);
      ("risk_factors"%string, VList []);
      ("market_sentiment"%string,
       VDict [ ("overall"%string, VFloat float_zero);
               ("by_sector"%string, VDict []);
               ("by_product"%string, VDict []) ]);
      ("growth_potential"%string,
       VDict [ ("short_term"%string, VDict []);
               ("medium_term"%string, VDict []);
               ("long_term"%string, VDict []) ]) ].



(** ** Sample worlds and collaborators *)

Definition sample_result (tag : string) (d : option value) (e : option value)
  (t : string) : SourceResult :=
  {| source := Some tag; data := d; error := e; timestamp := Some (VStr t) |}.

Definition sample_world : world :=
  {| clock := fun n => String.append "2024-01-01T00:00:0" (str_of_int (Z.of_nat n));
     tick := O;
     network := fun _ => Responds 200 (Ok (VDict [("items"%string, VList [VInt 1])]));
     schedule := [];
     interrupt := None;
     sessions := [];
     self_session := None;
     log := [];
     settled := [] |}.

(** A world with an open session where the three endpoints answer 500, a
    payload, and nothing at all. *)
Definition mixed_world : world :=
  {| clock := fun n => String.append "2024-01-01T00:00:0" (str_of_int (Z.of_nat n));
     tick := O;
     network := fun url =>
       if String.eqb url "https://api.example.com/trends" then Responds 500 (Ok VNone)
       else if String.eqb url "https://api.example.com/competitors"
            then Responds 200 (Ok (VDict [("leaders"%string, VList [VStr "acme"])]))
            else ConnectFails (Exception "Cannot connect to host");
     schedule := [2; 0; 1]%nat;
     interrupt := None;
     sessions := [true];
     self_session := Some O;
     log := [];
     settled := [] |}.

(** A world where every endpoint answers 503 and nothing interrupts. *)
Definition failing_world : world :=
  {| clock := fun n => String.append "2024-01-01T00:00:0" (str_of_int (Z.of_nat n));
     tick := O;
     network := fun _ => Responds 503 (Ok VNone);
     schedule := [3; 1]%nat;
     interrupt := None;
     sessions := [];
     self_session := None;
     log := [];
     settled := [] |}.

(** A world where the await of the gather is interrupted after two tasks. *)
Definition interrupted_world : world :=
  {| clock := fun n => String.append "2024-01-01T00:00:0" (str_of_int (Z.of_nat n));
     tick := O;
     network := fun _ => Responds 200 (Ok VNone);
     schedule := [];
     interrupt := Some (2%nat, Exception "Event loop is closed");
     sessions := [false];
     self_session := Some O;
     log := [];
     settled := [] |}.

(** Analyzer methods whose sentiment facet faults, and others whose
    recommendation step faults. *)
Definition recommendation_faults : MarketAnalyzer.Methods :=
  {| MarketAnalyzer._analyze_trends := MarketAnalyzer._analyze_trends MarketAnalyzer.methods;
     MarketAnalyzer._analyze_competitors :=
       MarketAnalyzer._analyze_competitors MarketAnalyzer.methods;
     MarketAnalyzer._identify_opportunities :=
       MarketAnalyzer._identify_opportunities MarketAnalyzer.methods;
     MarketAnalyzer._assess_risks := MarketAnalyzer._assess_risks MarketAnalyzer.methods;
     MarketAnalyzer._analyze_sentiment :=
       MarketAnalyzer._analyze_sentiment MarketAnalyzer.methods;
     MarketAnalyzer._assess_growth_potential :=
       MarketAnalyzer._assess_growth_potential MarketAnalyzer.methods;
     MarketAnalyzer._generate_recommendations := fun _ => raise (Exception "no rule") |}.

Definition sentiment_faults : MarketAnalyzer.Methods :=
  {| MarketAnalyzer._analyze_trends := MarketAnalyzer._analyze_trends MarketAnalyzer.methods;
     MarketAnalyzer._analyze_competitors :=
       MarketAnalyzer._analyze_competitors MarketAnalyzer.methods;
     MarketAnalyzer._identify_opportunities :=
       MarketAnalyzer._identify_opportunities MarketAnalyzer.methods;
     MarketAnalyzer._assess_risks := MarketAnalyzer._assess_risks MarketAnalyzer.methods;
     MarketAnalyzer._analyze_sentiment := fun _ => raise (Exception "division by zero");
     MarketAnalyzer._assess_growth_potential :=
       MarketAnalyzer._assess_growth_potential MarketAnalyzer.methods;
     MarketAnalyzer._generate_recommendations :=
       MarketAnalyzer._generate_recommendations MarketAnalyzer.methods |}.

(** A detector that finds one trend per bundle and one opportunity per trend. *)
Definition sample_detector : TrendDetector :=
  spec_detector (fun _ => ret [VDict [("classification"%string, VStr "emerging")]])
                (fun found trend => found ++ [VDict [("from"%string, trend)]]).

(** A detector whose trend detection faults. *)
Definition faulty_detector : TrendDetector :=
  {| detect_trends := fun _ => raise (Exception "no data");
     identify_opportunities := fun trends => ret trends |}.

End Vocabulary.

(** ** Vocabulary of further statements *)

Section FurtherVocabulary.

Import MarketAnalyzer.

(** The tags under which [_combine_data] files the results, in list order:
    those that are there and not empty. *)
Definition filed_tags (results : list SourceResult) : list string :=
  flat_map (fun r => match source r with
                     | Some tag => if str_truthy tag then [tag] else []
                     | None => []
                     end) results.

(** A list without its repetitions, each element where it is first seen. *)
Fixpoint first_seen (l : list string) : list string :=
  match l with
  | [] => []
  | x :: l' => x :: filter (fun y => negb (String.eqb x y)) (first_seen l')
  end.

(** Whether [k] is among the strings of [l]. *)
Definition among (l : list string) (k : string) : bool := existsb (String.eqb k) l.

(** The world after [n] calls of [gather_data] in a row, whatever each
    returned or raised. *)
Definition after_gathers (n : nat) (w : world) : world :=
  Nat.iter n (fun w0 => snd (gather_data w0)) w.

(** [a] is the result of task [t], the task of index [j], which ran when the
    clock was [k] readings past [w0], [k] being the place of [j] in [order]. *)
Definition settles_at {A} (w0 : world) (order : list nat) (j : nat) (t : M A) (a : A)
  : Prop :=
  exists w k,
    frame w0 w /\ nth_error order k = Some j /\ tick w = (tick w0 + k)%nat /\
    fst (t w) = Ok a.

(** The cells of the tasks from index [i] on, the settled ones having
    settled as [order] says. *)
Inductive cells_at {A} (w0 : world) (order : list nat)
  : nat -> list (M A) -> list (cell A) -> Prop :=
| cells_at_nil (i : nat) : cells_at w0 order i [] []
| cells_at_pending (i : nat) (t : M A) (tasks : list (M A)) (cells : list (cell A)) :
    cells_at w0 order (S i) tasks cells ->
    cells_at w0 order i (t :: tasks) (Pending t :: cells)
| cells_at_settled (i : nat) (t : M A) (a : A) (tasks : list (M A)) (cells : list (cell A)) :
    settles_at w0 order i t a ->
    cells_at w0 order (S i) tasks cells ->
    cells_at w0 order i (t :: tasks) (Settled a :: cells).

(** The results of the tasks from index [i] on, each settled as [order] says. *)
Inductive results_at {A} (w0 : world) (order : list nat)
  : nat -> list (M A) -> list A -> Prop :=
| results_at_nil (i : nat) : results_at w0 order i [] []
| results_at_cons (i : nat) (t : M A) (a : A) (tasks : list (M A)) (results : list A) :
    settles_at w0 order i t a ->
    results_at w0 order (S i) tasks results ->
    results_at w0 order i (t :: tasks) (a :: results).

End FurtherVocabulary.

(** * Properties *)

(** ** Dicts *)

Lemma dict_get_set_eq (d : dict) (k : string) (v : value) :
  dict_get (dict_set d k v) k = Some v.
Proof.
  induction d as [|[k' v'] d IH]; simpl.
  - now rewrite String.eqb_refl.
  - destruct (String.eqb k k') eqn:E; simpl; rewrite E; auto.
Qed.

Lemma dict_get_set_ne (d : dict) (k k' : string) (v : value) :
  k <> k' -> dict_get (dict_set d k v) k' = dict_get d k'.
Proof.
  intros Hne. induction d as [|[k0 v0] d IH]; simpl.
  - destruct (String.eqb_spec k' k); congruence.
  - destruct (String.eqb_spec k k0) as [->|Hk]; simpl.
    + destruct (String.eqb_spec k' k0); congruence.
    + now rewrite IH.
Qed.





(** ** Combination of the fetch results *)

Section Combine.

Import MarketAnalyzer.


Lemma combine_step_tagged (d : dict) (r : SourceResult) (s : string) :
  source r = Some s -> str_truthy s = true ->
  combine_step d r = dict_set d s (entry_of r).
Proof.
  unfold combine_step. intros -> ->. reflexivity.
Qed.

Lemma combine_step_other (d : dict) (r : SourceResult) (s : string) :
  source r <> Some s -> dict_get (combine_step d r) s = dict_get d s.
Proof.
  unfold combine_step. intros Hne.
  destruct (source r) as [tag|]; [|reflexivity].
  destruct (str_truthy tag); [|reflexivity].
  apply dict_get_set_ne. congruence.
Qed.



Lemma combine_fold_other (results : list SourceResult) (d : dict) (s : string) :
  Forall (fun r => source r <> Some s) results ->
  dict_get (fold_left combine_step results d) s = dict_get d s.
Proof.
  revert d. induction results as [|r results IH]; simpl; intros d Hall; [reflexivity|].
  inversion Hall as [|? ? Hr Hrest]; subst.
  rewrite IH by assumption. now apply combine_step_other.
Qed.





Example combine_failed_and_untagged :
  fst (_combine_data
         [ sample_result "industry_trends" None (Some (VStr "Failed to fetch data: 500")) "t1";
           {| source := None; data := Some (VInt 7); error := None; timestamp := None |};
           sample_result EmptyString (Some (VInt 8)) None "t2";
           sample_result "social_media" (Some (VDict [("trends"%string, VList [])])) None "t3" ]
         sample_world) =
    Ok (VDict
      [ ("timestamp"%string, VStr "2024-01-01T00:00:00");
        ("sources"%string, VDict
          [ ("industry_trends"%string, VDict
              [ ("data"%string, VDict []);
                ("error"%string, VStr "Failed to fetch data: 500");
                ("timestamp"%string, VStr "t1") ]);
            ("social_media"%string, VDict
              [ ("data"%string, VDict [("trends"%string, VList [])]);
                ("error"%string, VNone);
                ("timestamp"%string, VStr "t3") ]) ]) ]).
Proof. reflexivity. Qed.

End Combine.

(** ** The fetchers *)

Section Fetchers.

Import MarketAnalyzer.

Lemma fetch_returns (f : fetcher) (w : world) :
  exists r,
    fetch f w = (Ok r, with_tick (S (tick w)) w) /\
    source r = Some (tag_of f) /\
    timestamp r = Some (VStr (clock w (tick w))) /\
    (session_open w = true -> captured w (url_of f) r) /\
    (session_open w = false -> data r = None /\ exists m, error r = Some (VStr m)).
Proof.
  unfold captured, session_open.
  destruct f;
    unfold fetch, _gather_industry_trends, _gather_competitor_data, _gather_market_demands,
      try_except, bind, session_get, response_json, lift, datetime_now_isoformat, ret;
    cbn [getitem api_endpoints find fst String.eqb Ascii.eqb Bool.eqb ret url_of tag_of];
    (destruct (self_session w) as [i|];
     [destruct (nth i (sessions w) false);
      [destruct (network w _) as [e0|st b] eqn:Hnet;
       [|cbn [status body];
         destruct (Z.eqb_spec st 200) as [->|Hst]; [destruct b as [payload|e0]|]]|]|]);
    eexists; (split; [reflexivity|]);
    cbn [source timestamp data error];
    repeat split; intros; try congruence; eauto.
Qed.

End Fetchers.

(** ** The gather *)

Section Gather.

Context {A : Type}.

Lemma frame_refl (w : world) : frame w w.
Proof. unfold frame. intuition. Qed.

Lemma frame_trans (w1 w2 w3 : world) : frame w1 w2 -> frame w2 w3 -> frame w1 w3.
Proof. unfold frame. intuition congruence. Qed.

Lemma frame_with_schedule (w : world) (s : list nat) : frame w (with_schedule s w).
Proof. unfold frame. simpl. intuition. Qed.

Lemma pending_from_length (cells : list (cell A)) (i : nat) :
  length (pending_from i cells) = pending_count cells.
Proof.
  revert i. induction cells as [|[t|a] cells IH]; simpl; intros i; auto.
Qed.

Lemma pending_from_all (tasks : list (M A)) (i : nat) :
  pending_from i (map Pending tasks) = seq i (length tasks).
Proof.
  revert i. induction tasks as [|t tasks IH]; simpl; intros i; [reflexivity|].
  now rewrite IH.
Qed.

Lemma cells_all_pending (w0 : world) (n : nat) (tasks : list (M A)) :
  Forall2 (cell_of w0 n) tasks (map Pending tasks).
Proof.
  induction tasks; simpl; constructor; auto. now left.
Qed.

Lemma pending_count_all (tasks : list (M A)) :
  pending_count (map Pending tasks) = length tasks.
Proof. induction tasks; simpl; auto. Qed.

Lemma settled_count_all (tasks : list (M A)) :
  settled_count (map Pending tasks) = O.
Proof. induction tasks; simpl; auto. Qed.

Lemma cells_count (w0 : world) (n : nat) (tasks : list (M A)) (cells : list (cell A)) :
  Forall2 (cell_of w0 n) tasks cells ->
  (settled_count cells + pending_count cells = length tasks)%nat.
Proof.
  induction 1 as [|t c tasks cells Hc Hrest IH]; simpl; [reflexivity|].
  destruct Hc as [-> | (a & -> & _)]; simpl; lia.
Qed.

Lemma results_of_settled (w0 : world) (n : nat) (tasks : list (M A)) (cells : list (cell A)) :
  Forall2 (cell_of w0 n) tasks cells -> pending_count cells = O ->
  Forall2 (settles_in w0 n) tasks (results_of cells).
Proof.
  induction 1 as [|t c tasks cells Hc Hrest IH]; simpl; intros Hp; [constructor|].
  destruct Hc as [-> | (a & -> & Ha)]; [discriminate|].
  constructor; auto.
Qed.

(** One round: the picked task runs to its end in the current world, its
    cell becomes settled, its index is recorded, nothing else changes. *)
Lemma settle_nth_spec (w0 : world) (n : nat) (tasks : list (M A)) (cells : list (cell A)) :
  Forall2 (cell_of w0 n) tasks cells -> Forall quiet tasks ->
  forall k i w, frame w0 w -> (tick w0 <= tick w < tick w0 + n)%nat ->
  (k < pending_count cells)%nat ->
  exists cells' w' j,
    settle_nth k i cells w = (Ok cells', w') /\
    Forall2 (cell_of w0 n) tasks cells' /\
    frame w0 w' /\
    tick w' = S (tick w) /\
    settled w' = settled w ++ [j] /\
    Permutation (j :: pending_from i cells') (pending_from i cells) /\
    settled_count cells' = S (settled_count cells).
Proof.
  induction 1 as [|t c tasks cells Hc Hrest IH]; intros Hq k i w Hf Ht Hk;
    simpl in Hk; [lia|].
  inversion Hq as [|? ? Hqt Hqrest]; subst.
  destruct Hc as [-> | (a & -> & Ha)].
  - destruct k as [|k'].
    + destruct (Hqt w) as (a & Hrun).
      exists (Settled a :: cells),
             (with_settled (settled w ++ [i]) (with_tick (S (tick w)) w)), i.
      simpl. unfold bind. rewrite Hrun. simpl.
      repeat split; try apply Hf; auto.
      constructor; auto. right. exists a. split; auto.
      exists w. repeat split; try apply Hf; try lia. now rewrite Hrun.
    + destruct (IH Hqrest k' (S i) w Hf Ht)
        as (cells' & w' & j & Hrun & Hcells & Hf' & Ht' & Hs & Hp & Hc);
        [simpl in Hk; lia|].
      exists (Pending t :: cells'), w', j.
      simpl. unfold bind. rewrite Hrun. simpl.
      repeat split; try apply Hf'; auto.
      * constructor; auto. now left.
      * rewrite perm_swap. now constructor.
  - destruct (IH Hqrest k (S i) w Hf Ht)
      as (cells' & w' & j & Hrun & Hcells & Hf' & Ht' & Hs & Hp & Hc);
      [simpl in Hk; lia|].
    exists (Settled a :: cells'), w', j.
    simpl. unfold bind. rewrite Hrun. simpl.
    repeat split; try apply Hf'; auto.
    constructor; auto. right. exists a. split; auto.
Qed.

Lemma check_interrupt_cases (done : nat) (w : world) :
  check_interrupt done w = (Ok tt, w) \/
  exists e, check_interrupt done w = (Raise e, w) /\ interrupt w = Some (done, e).
Proof.
  unfold check_interrupt. destruct (interrupt w) as [[n e]|]; [|now left].
  destruct (Nat.eqb_spec n done) as [->|Hn]; [right; eauto|now left].
Qed.

Lemma next_pick_spec (n : nat) (w : world) :
  (0 < n)%nat ->
  exists k s, next_pick n w = (Ok k, with_schedule s w) /\ (k < n)%nat.
Proof.
  intros Hn. unfold next_pick. destruct (schedule w) as [|p rest] eqn:Hs.
  - exists O, []. split; [|assumption].
    f_equal. destruct w; simpl in *; now subst.
  - exists (Nat.modulo p n), rest. split; [reflexivity|].
    apply Nat.mod_upper_bound. lia.
Qed.

(** The loop: either every task has settled, in some order, or the awaiting
    coroutine was interrupted. *)
Lemma event_loop_spec (w0 : world) (tasks : list (M A)) :
  Forall quiet tasks ->
  forall rounds cells w order,
  Forall2 (cell_of w0 (length tasks)) tasks cells -> frame w0 w ->
  pending_count cells = rounds ->
  tick w = (tick w0 + settled_count cells)%nat ->
  settled w = settled w0 ++ order ->
  Permutation (order ++ pending_from O cells) (seq O (length tasks)) ->
  match event_loop rounds cells w with
  | (Ok cells', w') =>
      Forall2 (cell_of w0 (length tasks)) tasks cells' /\ pending_count cells' = O /\
      frame w0 w' /\ tick w' = (tick w0 + length tasks)%nat /\
      exists order', settled w' = settled w0 ++ order' /\
                     Permutation order' (seq O (length tasks))
  | (Raise e, w') => frame w0 w' /\ exists n, interrupt w0 = Some (n, e)
  end.
Proof.
  intros Hq. induction rounds as [|rounds IH];
    intros cells w order Hcells Hf Hp Ht Hs Hperm.
  - simpl. split; [assumption|]. split; [assumption|]. split; [assumption|].
    split; [apply cells_count in Hcells; lia|].
    exists order. split; [assumption|].
    assert (Hnil : pending_from O cells = []).
    { apply length_zero_iff_nil. now rewrite pending_from_length. }
    rewrite Hnil, app_nil_r in Hperm. exact Hperm.
  - simpl. unfold bind at 1.
    destruct (check_interrupt_cases (settled_count cells) w) as [Hc | (e & Hc & Hi)];
      rewrite Hc.
    + unfold bind at 1.
      destruct (next_pick_spec (pending_count cells) w) as (k & s & Hpick & Hk); [lia|].
      rewrite Hpick. unfold bind at 1.
      assert (Hf1 : frame w0 (with_schedule s w))
        by (eapply frame_trans; [exact Hf|apply frame_with_schedule]).
      assert (Ht1 : (tick w0 <= tick (with_schedule s w) < tick w0 + length tasks)%nat).
      { simpl. apply cells_count in Hcells. lia. }
      destruct (settle_nth_spec w0 _ tasks cells Hcells Hq k O _ Hf1 Ht1 Hk)
        as (cells' & w' & j & Hrun & Hcells' & Hf' & Ht' & Hs' & Hp' & Hc').
      rewrite Hrun.
      apply (IH cells' w' (order ++ [j])); auto.
      * apply Permutation_length in Hp'. simpl in Hp'.
        rewrite !pending_from_length in Hp'. lia.
      * rewrite Ht', Hc'. simpl. lia.
      * rewrite Hs'. simpl. rewrite Hs. now rewrite app_assoc.
      * rewrite <- Hperm, <- app_assoc. apply Permutation_app_head. exact Hp'.
    + split; [assumption|]. exists (settled_count cells).
      destruct Hf as (_ & _ & Hint & _). congruence.
Qed.

(** [asyncio.gather] over quiet tasks: unless the await is interrupted, every
    task has settled when the results are handed over, and the results are
    those of the tasks, in the order of the tasks. *)
Lemma asyncio_gather_spec (tasks : list (M A)) (w : world) :
  Forall quiet tasks ->
  match asyncio_gather tasks w with
  | (Ok results, w') =>
      Forall2 (settles_in w (length tasks)) tasks results /\ frame w w' /\
      tick w' = (tick w + length tasks)%nat /\
      exists order, settled w' = settled w ++ order /\
                    Permutation order (seq O (length tasks))
  | (Raise e, w') => frame w w' /\ exists n, interrupt w = Some (n, e)
  end.
Proof.
  intros Hq. unfold asyncio_gather, bind.
  pose proof (event_loop_spec w tasks Hq (length tasks) (map Pending tasks) w []
                (cells_all_pending w _ tasks) (frame_refl w) (pending_count_all tasks))
    as Hloop.
  rewrite settled_count_all, pending_from_all, Nat.add_0_r, app_nil_r in Hloop.
  specialize (Hloop eq_refl eq_refl (Permutation_refl _)).
  destruct (event_loop (length tasks) (map Pending tasks) w) as [[cells|e] w1];
    [|exact Hloop].
  destruct Hloop as (Hcells & Hp & Hf & Ht & order & Hs & Hperm).
  destruct (check_interrupt_cases (settled_count cells) w1) as [Hc | (e & Hc & Hi)];
    rewrite Hc.
  - split; [now apply results_of_settled|]. split; [assumption|]. split; [assumption|].
    exists order. now split.
  - split; [assumption|]. exists (settled_count cells).
    destruct Hf as (_ & _ & Hint & _). congruence.
Qed.

End Gather.

(** ** gather_data *)

Section GatherData.

Import MarketAnalyzer.

Lemma fetch_quiet (f : fetcher) : quiet (fetch f).
Proof.
  intros w. destruct (fetch_returns f w) as (r & Hrun & _). now exists r.
Qed.

Lemma social_media_quiet : quiet _gather_social_media_trends.
Proof. intros w. eexists. reflexivity. Qed.

Lemma set_nth_last {X} (l : list X) (x y : X) :
  set_nth (length l) y (l ++ [x]) = l ++ [y].
Proof. induction l; simpl; congruence. Qed.

Lemma opened_session_open (w : world) : session_open (opened w) = true.
Proof. unfold session_open, opened. simpl. now rewrite nth_middle. Qed.

Lemma settles_fetch (w0 : world) (n : nat) (f : fetcher) (r : SourceResult) :
  settles_in w0 n (fetch f) r ->
  source r = Some (tag_of f) /\
  (exists i, (tick w0 <= i < tick w0 + n)%nat /\ timestamp r = Some (VStr (clock w0 i))) /\
  (session_open w0 = true -> captured w0 (url_of f) r).
Proof.
  intros (w & Hf & Ht & Hrun).
  destruct (fetch_returns f w) as (r' & Hrun' & Hsrc & Hts & Hcap & _).
  rewrite Hrun' in Hrun. simpl in Hrun. injection Hrun as <-.
  destruct Hf as (Hclock & Hnet & _ & Hsess & Hself & _).
  split; [assumption|]. split.
  - exists (tick w). split; [assumption|]. now rewrite <- Hclock.
  - intros Hopen. unfold captured in *. rewrite <- Hnet. apply Hcap.
    unfold session_open in *. now rewrite Hsess, Hself.
Qed.

Lemma settles_social_media (w0 : world) (n : nat) (r : SourceResult) :
  settles_in w0 n _gather_social_media_trends r ->
  source r = Some "social_media"%string /\
  data r = Some (VDict [("trends"%string, VList [])]) /\ error r = None /\
  exists i, (tick w0 <= i < tick w0 + n)%nat /\ timestamp r = Some (VStr (clock w0 i)).
Proof.
  intros (w & Hf & Ht & Hrun). simpl in Hrun. injection Hrun as <-. simpl.
  destruct Hf as (Hclock & _). repeat split.
  exists (tick w). split; [assumption|]. now rewrite <- Hclock.
Qed.

Lemma gather_tasks_quiet :
  Forall quiet [ _gather_industry_trends; _gather_competitor_data;
                 _gather_market_demands; _gather_social_media_trends ].
Proof.
  repeat constructor.
  - apply (fetch_quiet IndustryTrends).
  - apply (fetch_quiet CompetitorData).
  - apply (fetch_quiet MarketDemands).
  - apply social_media_quiet.
Qed.

(** Both exits of [gather_data]. On the normal one the bundle is the
    combination of the four results, read off after the four tasks have
    settled; on the other one the await was interrupted. *)
Lemma gather_data_spec (w : world) :
  match gather_data w with
  | (Ok bundle, w') =>
      (exists r1 r2 r3 r4,
         settles_in (opened w) 4 (fetch IndustryTrends) r1 /\
         settles_in (opened w) 4 (fetch CompetitorData) r2 /\
         settles_in (opened w) 4 (fetch MarketDemands) r3 /\
         settles_in (opened w) 4 _gather_social_media_trends r4 /\
         bundle = VDict [ ("timestamp"%string, VStr (clock w (tick w + 4)));
                          ("sources"%string,
                           VDict [ ("industry_trends"%string, entry_of r1);
                                   ("competitor_data"%string, entry_of r2);
                                   ("market_demands"%string, entry_of r3);
                                   ("social_media"%string, entry_of r4) ]) ]) /\
      released w w' /\ tick w' = (tick w + 5)%nat /\
      clock w' = clock w /\ network w' = network w /\
      interrupt w' = interrupt w /\ log w' = log w /\
      exists order, settled w' = settled w ++ order /\ Permutation order (seq O 4)
  | (Raise e, w') => released w w' /\ exists n, interrupt w = Some (n, e)
  end.
Proof.
  unfold gather_data, bind at 1, ClientSession, try_finally. fold (opened w).
  unfold bind at 1.
  pose proof (asyncio_gather_spec
                [ _gather_industry_trends; _gather_competitor_data;
                  _gather_market_demands; _gather_social_media_trends ] (opened w))
    as Hg.
  destruct (asyncio_gather _ (opened w)) as [[results|e] w2].
  - destruct Hg as (Hres & Hf & Ht & order & Hs & Hperm).
    { apply gather_tasks_quiet. }
    inversion Hres as [|? r1 ? ? H1 Hres1]; subst; clear Hres.
    inversion Hres1 as [|? r2 ? ? H2 Hres2]; subst; clear Hres1.
    inversion Hres2 as [|? r3 ? ? H3 Hres3]; subst; clear Hres2.
    inversion Hres3 as [|? r4 ? ? H4 Hres4]; subst; clear Hres3.
    inversion Hres4; subst; clear Hres4.
    change (length _) with 4%nat in H1, H2, H3, H4, Ht.
    destruct (settles_fetch _ _ IndustryTrends _ H1) as (S1 & _).
    destruct (settles_fetch _ _ CompetitorData _ H2) as (S2 & _).
    destruct (settles_fetch _ _ MarketDemands _ H3) as (S3 & _).
    destruct (settles_social_media _ _ _ H4) as (S4 & _).
    destruct Hf as (Hclock & Hnet & Hint & Hsess & Hself & Hlog).
    unfold _combine_data, bind, datetime_now_isoformat, ret, session_close.
    cbn [self_session with_tick]. rewrite Hself. cbn [opened with_sessions self_session].
    cbn [fold_left]. unfold combine_step. rewrite S1, S2, S3, S4.
    cbn [tag_of str_truthy dict_set String.eqb Ascii.eqb Bool.eqb].
    split.
    + exists r1, r2, r3, r4. repeat split; auto.
      rewrite Hclock, Ht. reflexivity.
    + unfold released, session_open. cbn. rewrite Hsess. cbn.
      rewrite set_nth_last. rewrite nth_middle.
      cbn [opened with_sessions clock network interrupt log tick settled] in *.
      repeat split; auto; try lia.
      exists order. split; auto.
  - destruct Hg as (Hf & n & Hint).
    { apply gather_tasks_quiet. }
    destruct Hf as (Hclock & Hnet & Hint' & Hsess & Hself & Hlog).
    unfold session_close. rewrite Hself. cbn [opened with_sessions self_session].
    split; [|exists n; exact Hint].
    unfold released, session_open. cbn. rewrite Hsess. cbn.
    rewrite set_nth_last. rewrite nth_middle. auto.
Qed.

End GatherData.

(** ** Statements about the fetchers and the gather *)

Section FetcherProperties.

Import MarketAnalyzer.

(** C8. The social-media fetcher returns, in every world, the stub result
    tagged [social_media] with the payload [{'trends': []}], the current
    clock reading as timestamp and no error key; it never raises and does
    nothing but read the clock. *)
Theorem social_media_stub (w : world) :
  _gather_social_media_trends w =
    (Ok {| source := Some "social_media"%string;
           data := Some (VDict [("trends"%string, VList [])]);
           error := None;
           timestamp := Some (VStr (clock w (tick w))) |},
     with_tick (S (tick w)) w).
Proof. reflexivity. Qed.



Example fetch_status_500 :
  fst (fetch IndustryTrends mixed_world) =
    Ok {| source := Some "industry_trends"%string;
          data := None;
          error := Some (VStr "Failed to fetch data: 500");
          timestamp := Some (VStr "2024-01-01T00:00:00") |}.
Proof. reflexivity. Qed.

Example fetch_payload :
  fst (fetch CompetitorData mixed_world) =
    Ok {| source := Some "competitor_data"%string;
          data := Some (VDict [("leaders"%string, VList [VStr "acme"])]);
          error := None;
          timestamp := Some (VStr "2024-01-01T00:00:00") |}.
Proof. reflexivity. Qed.

Example fetch_transport_fault :
  fst (fetch MarketDemands mixed_world) =
    Ok {| source := Some "market_demands"%string;
          data := None;
          error := Some (VStr "Cannot connect to host");
          timestamp := Some (VStr "2024-01-01T00:00:00") |}.
Proof. reflexivity. Qed.

Example fetch_without_session :
  fst (fetch MarketDemands failing_world) =
    Ok {| source := Some "market_demands"%string;
          data := None;
          error := Some (VStr "'NoneType' object has no attribute 'get'");
          timestamp := Some (VStr "2024-01-01T00:00:00") |}.
Proof. reflexivity. Qed.

End FetcherProperties.

Section GatherProperties.

Import MarketAnalyzer.

Lemma settles_timestamp (w0 : world) (n : nat) (f : fetcher) (r : SourceResult) :
  settles_in w0 n (fetch f) r ->
  exists i, (tick w0 <= i < tick w0 + n)%nat /\
            field (entry_of r) "timestamp" = Some (VStr (clock w0 i)).
Proof.
  intros H. destruct (settles_fetch _ _ _ _ H) as (_ & (i & Hi & Hts) & _).
  exists i. split; [assumption|]. unfold entry_of. simpl. now rewrite Hts.
Qed.

(** C2. Whatever each endpoint does, and in whatever order the four tasks
    settle, [gather_data] returns (unless its await is interrupted) a bundle
    whose [sources] has exactly the four configured tags, one entry each. The
    bundle is built after the four fetches have settled: its timestamp is the
    clock reading that follows the four readings the entries carry, and by
    then each of the four tasks is recorded as settled. *)
Theorem gather_bundle_complete (w : world) :
  interrupt w = None ->
  exists srcs w',
    gather_data w =
      (Ok (VDict [ ("timestamp"%string, VStr (clock w (tick w + 4)));
                   ("sources"%string, VDict srcs) ]), w') /\
    keys srcs = configured_sources /\
    (forall k v, In (k, v) srcs ->
       exists i, (tick w <= i < tick w + 4)%nat /\
                 field v "timestamp" = Some (VStr (clock w i))) /\
    exists order, settled w' = settled w ++ order /\
                  Permutation order [0; 1; 2; 3]%nat.
Proof.
  intros Hint. pose proof (gather_data_spec w) as H.
  destruct (gather_data w) as [[bundle|e] w'].
  - destruct H as ((r1 & r2 & r3 & r4 & H1 & H2 & H3 & H4 & ->) & _ & _ & _ & _ & _ & _ & Hord).
    eexists. exists w'. split; [reflexivity|]. split; [reflexivity|]. split; [|exact Hord].
    intros k v [Hin|[Hin|[Hin|[Hin|[]]]]]; injection Hin as <- <-.
    + apply (settles_timestamp (opened w) 4 IndustryTrends r1 H1).
    + apply (settles_timestamp (opened w) 4 CompetitorData r2 H2).
    + apply (settles_timestamp (opened w) 4 MarketDemands r3 H3).
    + destruct (settles_social_media _ _ _ H4) as (_ & _ & _ & i & Hi & Hts).
      exists i. split; [assumption|]. unfold entry_of. simpl. now rewrite Hts.
  - destruct H as (_ & n & Hn). congruence.
Qed.

Lemma gather_bundle_complete_witness :
  exists srcs w',
    gather_data mixed_world =
      (Ok (VDict [ ("timestamp"%string, VStr (clock mixed_world (tick mixed_world + 4)));
                   ("sources"%string, VDict srcs) ]), w') /\
    keys srcs = configured_sources /\
    (forall k v, In (k, v) srcs ->
       exists i, (tick mixed_world <= i < tick mixed_world + 4)%nat /\
                 field v "timestamp" = Some (VStr (clock mixed_world i))) /\
    exists order, settled w' = settled mixed_world ++ order /\
                  Permutation order [0; 1; 2; 3]%nat.
Proof. apply (gather_bundle_complete mixed_world). reflexivity. Defined.

(** The scenario of the spec: one endpoint answers 500, one a payload, one
    not at all, the stub needs no endpoint. The market-demand task settles
    first here and so holds the first clock reading. *)
Example gather_mixed_outcomes :
  fst (gather_data mixed_world) =
    Ok (VDict
      [ ("timestamp"%string, VStr "2024-01-01T00:00:04");
        ("sources"%string, VDict
          [ ("industry_trends"%string, VDict
              [ ("data"%string, VDict []);
                ("error"%string, VStr "Failed to fetch data: 500");
                ("timestamp"%string, VStr "2024-01-01T00:00:01") ]);
            ("competitor_data"%string, VDict
              [ ("data"%string, VDict [("leaders"%string, VList [VStr "acme"])]);
                ("error"%string, VNone);
                ("timestamp"%string, VStr "2024-01-01T00:00:03") ]);
            ("market_demands"%string, VDict
              [ ("data"%string, VDict []);
                ("error"%string, VStr "Cannot connect to host");
                ("timestamp"%string, VStr "2024-01-01T00:00:00") ]);
            ("social_media"%string, VDict
              [ ("data"%string, VDict [("trends"%string, VList [])]);
                ("error"%string, VNone);
                ("timestamp"%string, VStr "2024-01-01T00:00:02") ]) ]) ]) /\
  settled (snd (gather_data mixed_world)) = [2; 0; 3; 1]%nat.
Proof. split; reflexivity. Qed.

(** C7. On every exit of [gather_data], the session it opened at its start is
    closed when it returns or raises, and it is still the one under
    [self.session]; no other session is touched. The exits are the normal one,
    with a bundle (whatever the fetches did), and the one where a fault
    reaches the await of the gather, which [gather_data] lets through. *)
Theorem gather_releases_session (w : world) :
  released w (snd (gather_data w)) /\
  ((exists bundle, fst (gather_data w) = Ok bundle) \/
   (exists n e, interrupt w = Some (n, e) /\ fst (gather_data w) = Raise e)).
Proof.
  pose proof (gather_data_spec w) as H.
  destruct (gather_data w) as [[bundle|e] w']; simpl.
  - destruct H as (_ & Hrel & _). split; [assumption|]. left. now exists bundle.
  - destruct H as (Hrel & n & Hn). split; [assumption|]. right. now exists n, e.
Qed.

Example gather_closes_its_own_session :
  sessions (snd (gather_data mixed_world)) = [true; false] /\
  self_session (snd (gather_data mixed_world)) = Some 1%nat.
Proof. split; reflexivity. Qed.

Example gather_interrupted :
  fst (gather_data interrupted_world) = Raise (Exception "Event loop is closed") /\
  sessions (snd (gather_data interrupted_world)) = [false; false] /\
  self_session (snd (gather_data interrupted_world)) = Some 1%nat /\
  settled (snd (gather_data interrupted_world)) = [0; 1]%nat.
Proof. repeat split; reflexivity. Qed.

End GatherProperties.

(** ** Statements about the analysis and the cycle *)

Section AnalysisProperties.

Import MarketAnalyzer.

Lemma bind_run {X Y} (m : M X) (k : X -> M Y) (w : world) :
  bind m k w = match m w with
               | (Ok a, w') => k a w'
               | (Raise e, w') => (Raise e, w')
               end.
Proof. reflexivity. Qed.

Lemma analysis_of_fault (self : Methods) (data : value) (w w' : world) (e : exn) :
  first_fault (facet_calls self data) w = Some (e, w') ->
  analysis_of self data w = (Raise e, w').
Proof.
  unfold facet_calls, analysis_of. cbn [first_fault]. rewrite !bind_run.
  destruct (_analyze_trends self data w) as [[a1|e1] w1]; [|congruence].
  rewrite !bind_run.
  destruct (_analyze_competitors self data w1) as [[a2|e2] w2]; [|congruence].
  rewrite !bind_run.
  destruct (MarketAnalyzer._identify_opportunities self data w2) as [[a3|e3] w3];
    [|congruence].
  rewrite !bind_run.
  destruct (MarketAnalyzer._assess_risks self data w3) as [[a4|e4] w4]; [|congruence].
  rewrite !bind_run.
  destruct (_analyze_sentiment self data w4) as [[a5|e5] w5]; [|congruence].
  rewrite !bind_run.
  destruct (_assess_growth_potential self data w5) as [[a6|e6] w6]; [|congruence].
  discriminate.
Qed.

(** C6. A fault in a facet or in the recommendation step makes
    [analyze_data] raise one exception whose message is
    [Error analyzing market data: ] followed by the message of the fault; no
    report is returned. The fault is the first one among the six facet
    calls, or, when the six facets returned, the one of the recommendation
    step (which runs after the timestamp is read). *)
Theorem analyze_data_wraps_faults
  (self : Methods) (data : value) (w w' : world) (e : exn) :
  first_fault (facet_calls self data) w = Some (e, w') \/
  (exists analysis w1,
     analysis_of self data w = (Ok analysis, w1) /\
     MarketAnalyzer._generate_recommendations self analysis (with_tick (S (tick w1)) w1)
       = (Raise e, w')) ->
  analyze_data self data w =
    (Raise (Exception (String.append "Error analyzing market data: " (str e))), w').
Proof.
  intros [Hfacet | (analysis & w1 & Hana & Hrec)]; unfold analyze_data, try_except.
  - rewrite bind_run, (analysis_of_fault _ _ _ _ _ Hfacet). reflexivity.
  - rewrite bind_run, Hana. unfold report_of, datetime_now_isoformat.
    rewrite bind_run. rewrite bind_run, Hrec. reflexivity.
Qed.

Lemma analyze_data_wraps_faults_witness :
  analyze_data sentiment_faults (VDict []) sample_world =
    (Raise (Exception "Error analyzing market data: division by zero"), sample_world).
Proof.
  apply (analyze_data_wraps_faults sentiment_faults (VDict []) sample_world sample_world
           (Exception "division by zero")).
  left. reflexivity.
Defined.

Example analyze_data_recommendation_fault :
  analyze_data recommendation_faults (VDict []) sample_world =
    (Raise (Exception "Error analyzing market data: no rule"),
     with_tick 1 sample_world).
Proof. reflexivity. Qed.

(** With the methods of the source the analysis is the same for every
    bundle: the facets at their empty shapes and no recommendation. *)
Lemma analyze_data_degraded (data : value) (w : world) :
  analyze_data methods data w =
    (Ok (VDict [ ("timestamp"%string, VStr (clock w (tick w)));
                 ("analysis"%string, degraded_analysis);
                 ("recommendations"%string, VList []) ]),
     with_tick (S (tick w)) w).
Proof. reflexivity. Qed.

End AnalysisProperties.

Section CycleProperties.

Import MarketAnalyzer.



Example run_success :
  fst (MarketResearchAgent.run (MarketResearchAgent.stages methods sample_detector)
         mixed_world) =
    Ok (VDict
      [ ("status"%string, VStr "success");
        ("market_analysis"%string,
         VDict [ ("timestamp"%string, VStr "2024-01-01T00:00:05");
                 ("analysis"%string, degraded_analysis);
                 ("recommendations"%string, VList []) ]);
        ("trends"%string, VList [VDict [("classification"%string, VStr "emerging")]]);
        ("opportunities"%string,
         VList [VDict [("from"%string,
                        VDict [("classification"%string, VStr "emerging")])]]);
        ("insights"%string,
         VDict [ ("key_findings"%string, VList []);
                 ("recommendations"%string, VList []);
                 ("risk_assessment"%string, VDict []) ]) ]).
Proof. reflexivity. Qed.

Example run_stage_fault :
  fst (MarketResearchAgent.run (MarketResearchAgent.stages methods faulty_detector)
         mixed_world) =
    Ok (VDict [ ("status"%string, VStr "error"); ("error"%string, VStr "no data") ]) /\
  log (snd (MarketResearchAgent.run (MarketResearchAgent.stages methods faulty_detector)
              mixed_world)) = ["Error in market research: no data"%string].
Proof. split; reflexivity. Qed.

Example run_gather_fault :
  fst (MarketResearchAgent.run (MarketResearchAgent.stages methods sample_detector)
         interrupted_world) =
    Ok (VDict [ ("status"%string, VStr "error"); ("error"%string, VStr "Event loop is closed") ]).
Proof. reflexivity. Qed.

Lemma captured_failure (w : world) (f : fetcher) (r : SourceResult) :
  captured w (url_of f) r -> fetch_fails w f = true ->
  data r = None /\ exists m, error r = Some (VStr m).
Proof.
  unfold captured, fetch_fails. intros (Hc & Hs & Hp & _) Hfail.
  destruct (network w (url_of f)) as [e|st [payload|e]] eqn:Hnet.
  - destruct (Hc e eq_refl) as (Hd & He). eauto.
  - destruct (Z.eqb_spec st 200) as [->|Hst]; [discriminate|].
    destruct (Hs st _ eq_refl Hst) as (Hd & He). eauto.
  - destruct (Z.eqb_spec st 200) as [->|Hst].
    + destruct (Hp e eq_refl) as (Hd & He). eauto.
    + destruct (Hs st _ eq_refl Hst) as (Hd & He). eauto.
Qed.

Lemma failed_entry (w : world) (f : fetcher) (r : SourceResult) :
  settles_in (opened w) 4 (fetch f) r -> fetch_fails w f = true ->
  field (entry_of r) "data" = Some (VDict []) /\
  exists m, field (entry_of r) "error" = Some (VStr m).
Proof.
  intros Hset Hfail.
  destruct (settles_fetch _ _ _ _ Hset) as (_ & _ & Hcap).
  destruct (captured_failure (opened w) f r (Hcap (opened_session_open w)) Hfail)
    as (Hd & m & He).
  unfold entry_of. simpl. rewrite Hd, He. eauto.
Qed.

(** C3. When the three network fetches all fail (the stub of social media
    cannot), the entries of the three sources carry an error and no data,
    the analysis still returns, with each of its six facets at its empty
    shape and the sentiment at zero, and [run] returns [status: success] as
    soon as the trend detector returns its trends and opportunities. With
    the analysis and the insights of the source, [run] returns
    [status: error] only when a method of the trend detector raises. *)
Theorem failed_fetches_still_succeed (trend_detector : TrendDetector) (w : world) :
  interrupt w = None ->
  all_fetches_fail w = true ->
  exists bundle w1 report w2,
    gather_data w = (Ok bundle, w1) /\
    (forall f, exists entry m,
       source_entry bundle (tag_of f) = Some entry /\
       field entry "data" = Some (VDict []) /\
       field entry "error" = Some (VStr m)) /\
    analyze_data methods bundle w1 = (Ok report, w2) /\
    field report "analysis" = Some degraded_analysis /\
    field report "recommendations" = Some (VList []) /\
    (forall trends w3 opportunities w4,
       detect_trends trend_detector bundle w2 = (Ok trends, w3) ->
       identify_opportunities trend_detector trends w3 = (Ok opportunities, w4) ->
       MarketResearchAgent.run (MarketResearchAgent.stages methods trend_detector) w =
         (Ok (VDict
            [ ("status"%string, VStr "success");
              ("market_analysis"%string, report);
              ("trends"%string, VList trends);
              ("opportunities"%string, VList opportunities);
              ("insights"%string,
               VDict [ ("key_findings"%string, VList []);
                       ("recommendations"%string, VList []);
                       ("risk_assessment"%string, VDict []) ]) ]), w4)) /\
    (forall v w',
       MarketResearchAgent.run (MarketResearchAgent.stages methods trend_detector) w =
         (Ok v, w') ->
       field v "status" = Some (VStr "error") ->
       (exists e w3, detect_trends trend_detector bundle w2 = (Raise e, w3)) \/
       (exists trends w3 e w4,
          detect_trends trend_detector bundle w2 = (Ok trends, w3) /\
          identify_opportunities trend_detector trends w3 = (Raise e, w4))).
Proof.
  intros Hint Hfail. unfold all_fetches_fail in Hfail.
  apply andb_prop in Hfail. destruct Hfail as (Hfail & F3).
  apply andb_prop in Hfail. destruct Hfail as (F1 & F2).
  pose proof (gather_data_spec w) as H.
  unfold MarketResearchAgent.run, try_except, MarketResearchAgent.stages.
  cbn [MarketResearchAgent._gather_market_data MarketResearchAgent._analyze_market_data
       MarketResearchAgent._detect_trends MarketResearchAgent._identify_opportunities
       MarketResearchAgent._generate_insights].
  rewrite bind_run.
  destruct (gather_data w) as [[bundle|e] w1];
    [|destruct H as (_ & n & Hn); congruence].
  destruct H as ((r1 & r2 & r3 & r4 & H1 & H2 & H3 & H4 & Hb) & _).
  exists bundle, w1. eexists. exists (with_tick (S (tick w1)) w1).
  split; [reflexivity|]. split.
  { subst bundle.
    destruct (failed_entry w IndustryTrends r1 H1 F1) as (D1 & m1 & E1).
    destruct (failed_entry w CompetitorData r2 H2 F2) as (D2 & m2 & E2).
    destruct (failed_entry w MarketDemands r3 H3 F3) as (D3 & m3 & E3).
    intros [];
      [exists (entry_of r1), m1|exists (entry_of r2), m2|exists (entry_of r3), m3];
      auto. }
  split; [apply analyze_data_degraded|].
  split; [reflexivity|]. split; [reflexivity|].
  rewrite bind_run, analyze_data_degraded. split.
  - intros trends w3 opportunities w4 Hd Hi.
    rewrite bind_run, Hd, bind_run, Hi. reflexivity.
  - intros v w'. rewrite bind_run.
    destruct (detect_trends trend_detector bundle _) as [[trends|e] w3] eqn:Hd;
      [|intros _ _; left; eauto].
    rewrite bind_run.
    destruct (identify_opportunities trend_detector trends w3) as [[opps|e] w4] eqn:Hi;
      [|intros _ _; right; eauto 6].
    cbn. intros Hv. injection Hv as <- <-. cbn. discriminate.
Qed.

Lemma failed_fetches_still_succeed_witness :
  exists bundle w1 report w2,
    gather_data failing_world = (Ok bundle, w1) /\
    (forall f, exists entry m,
       source_entry bundle (tag_of f) = Some entry /\
       field entry "data" = Some (VDict []) /\
       field entry "error" = Some (VStr m)) /\
    analyze_data methods bundle w1 = (Ok report, w2) /\
    field report "analysis" = Some degraded_analysis /\
    field report "recommendations" = Some (VList []) /\
    (forall trends w3 opportunities w4,
       detect_trends sample_detector bundle w2 = (Ok trends, w3) ->
       identify_opportunities sample_detector trends w3 = (Ok opportunities, w4) ->
       MarketResearchAgent.run (MarketResearchAgent.stages methods sample_detector)
         failing_world =
         (Ok (VDict
            [ ("status"%string, VStr "success");
              ("market_analysis"%string, report);
              ("trends"%string, VList trends);
              ("opportunities"%string, VList opportunities);
              ("insights"%string,
               VDict [ ("key_findings"%string, VList []);
                       ("recommendations"%string, VList []);
                       ("risk_assessment"%string, VDict []) ]) ]), w4)) /\
    (forall v w',
       MarketResearchAgent.run (MarketResearchAgent.stages methods sample_detector)
         failing_world = (Ok v, w') ->
       field v "status" = Some (VStr "error") ->
       (exists e w3, detect_trends sample_detector bundle w2 = (Raise e, w3)) \/
       (exists trends w3 e w4,
          detect_trends sample_detector bundle w2 = (Ok trends, w3) /\
          identify_opportunities sample_detector trends w3 = (Raise e, w4))).
Proof.
  apply (failed_fetches_still_succeed sample_detector failing_world); reflexivity.
Defined.

Example run_all_fetches_fail :
  fst (MarketResearchAgent.run (MarketResearchAgent.stages methods sample_detector)
         failing_world) =
    Ok (VDict
      [ ("status"%string, VStr "success");
        ("market_analysis"%string,
         VDict [ ("timestamp"%string, VStr "2024-01-01T00:00:05");
                 ("analysis"%string, degraded_analysis);
                 ("recommendations"%string, VList []) ]);
        ("trends"%string, VList [VDict [("classification"%string, VStr "emerging")]]);
        ("opportunities"%string,
         VList [VDict [("from"%string,
                        VDict [("classification"%string, VStr "emerging")])]]);
        ("insights"%string,
         VDict [ ("key_findings"%string, VList []);
                 ("recommendations"%string, VList []);
                 ("risk_assessment"%string, VDict []) ]) ]).
Proof. reflexivity. Qed.

(** C9. [_identify_opportunities] of the agent hands its trends to the
    detector and returns what the detector returns, adding no effect of its
    own. With the detector's method as the spec describes it, the result is a
    function of the trend sequence alone: it is the same in every world, the
    world is left as it was, nothing is raised; and the empty sequence gives
    the empty sequence. *)
Theorem identify_opportunities_pure
  (market_analyzer : Methods) (detect : value -> M (list value))
  (visit : list value -> value -> list value) :
  (forall trend_detector trends w,
     MarketResearchAgent._identify_opportunities
       (MarketResearchAgent.stages market_analyzer trend_detector) trends w =
       identify_opportunities trend_detector trends w) /\
  (forall trends w,
     MarketResearchAgent._identify_opportunities
       (MarketResearchAgent.stages market_analyzer (spec_detector detect visit)) trends w =
       (Ok (identify_opportunities_spec visit trends), w)) /\
  (forall w,
     MarketResearchAgent._identify_opportunities
       (MarketResearchAgent.stages market_analyzer (spec_detector detect visit)) [] w =
       (Ok [], w)).
Proof. repeat split; reflexivity. Qed.

End CycleProperties.

(** * Further properties *)

(** ** Order and completeness of the combination *)

Section CombineOrder.

Import MarketAnalyzer.

Lemma keys_dict_set_among (d : dict) (k : string) (v : value) :
  keys (dict_set d k v) = if among (keys d) k then keys d else keys d ++ [k].
Proof.
  unfold keys, among. induction d as [|[k0 v0] d IH]; simpl; [reflexivity|].
  destruct (String.eqb k k0); simpl; [reflexivity|].
  rewrite IH. now destruct (existsb (String.eqb k) (map fst d)).
Qed.

Lemma filter_filter {X} (f g : X -> bool) (l : list X) :
  filter f (filter g l) = filter (fun x => g x && f x) l.
Proof.
  induction l as [|x l IH]; simpl; [reflexivity|].
  destruct (g x); simpl; [destruct (f x)|]; now rewrite IH.
Qed.

Lemma among_app (l1 l2 : list string) (k : string) :
  among (l1 ++ l2) k = among l1 k || among l2 k.
Proof. unfold among. apply existsb_app. Qed.

(** The keys after the loop: those the dict had, then the new tags where
    each is first seen. *)
Lemma combine_fold_keys (results : list SourceResult) (d : dict) :
  keys (fold_left combine_step results d) =
    keys d ++ filter (fun t => negb (among (keys d) t)) (first_seen (filed_tags results)).
Proof.
  revert d. induction results as [|r results IH]; intros d.
  - simpl. now rewrite app_nil_r.
  - cbn [fold_left]. rewrite IH. unfold combine_step, filed_tags. cbn [flat_map].
    fold (filed_tags results).
    destruct (source r) as [tag|]; [|reflexivity].
    destruct (str_truthy tag); [|reflexivity].
    cbn [app first_seen filter]. rewrite keys_dict_set_among.
    destruct (among (keys d) tag) eqn:Hin; cbn [negb].
    + f_equal. rewrite filter_filter. apply filter_ext_in. intros t _.
      destruct (String.eqb_spec tag t) as [->|Hne]; cbn [negb andb]; [|reflexivity].
      now rewrite Hin.
    + rewrite <- app_assoc. cbn [app]. do 2 f_equal.
      rewrite filter_filter. apply filter_ext. intros t.
      rewrite among_app. unfold among at 2. cbn [existsb]. rewrite orb_false_r.
      rewrite negb_orb, (String.eqb_sym t tag). apply andb_comm.
Qed.

(** X1. The keys of [sources] are the non-empty tags of the results, each
    once, in the order in which each tag is first seen: a later result under
    a tag replaces the entry but not its place. *)
Theorem combine_keys_first_seen (results : list SourceResult) (w : world) :
  exists now srcs w',
    _combine_data results w =
      (Ok (VDict [ ("timestamp"%string, now); ("sources"%string, VDict srcs) ]), w') /\
    keys srcs = first_seen (filed_tags results).
Proof.
  do 3 eexists. split; [reflexivity|].
  rewrite combine_fold_keys. cbn [keys map app among existsb negb].
  induction (first_seen (filed_tags results)) as [|t l IH]; cbn; congruence.
Qed.

Lemma filed_tags_app (l1 l2 : list SourceResult) :
  filed_tags (l1 ++ l2) = filed_tags l1 ++ filed_tags l2.
Proof. unfold filed_tags. apply flat_map_app. Qed.

Lemma filed_tags_In (results : list SourceResult) (r : SourceResult) (s : string) :
  In r results -> source r = Some s -> str_truthy s = true -> In s (filed_tags results).
Proof.
  intros Hin Hs Ht. unfold filed_tags. apply in_flat_map. exists r.
  split; [assumption|]. rewrite Hs, Ht. now left.
Qed.

(** X2. When the non-empty tags of the results are pairwise distinct, nothing
    is overwritten: every result with a non-empty tag is found under its tag,
    wherever it stands in the list. *)
Theorem combine_lossless
  (results : list SourceResult) (r : SourceResult) (s : string) (w : world) :
  NoDup (filed_tags results) ->
  In r results -> source r = Some s -> str_truthy s = true ->
  exists now srcs w',
    _combine_data results w =
      (Ok (VDict [ ("timestamp"%string, now); ("sources"%string, VDict srcs) ]), w') /\
    dict_get srcs s = Some (entry_of r).
Proof.
  intros Hnd Hin Hs Ht. do 3 eexists. split; [reflexivity|].
  destruct (in_split _ _ Hin) as (l1 & l2 & ->).
  rewrite fold_left_app. cbn [fold_left].
  rewrite combine_fold_other.
  - rewrite (combine_step_tagged _ r s Hs Ht). apply dict_get_set_eq.
  - rewrite filed_tags_app in Hnd.
    assert (Hr : filed_tags (r :: l2) = s :: filed_tags l2).
    { unfold filed_tags. cbn [flat_map]. now rewrite Hs, Ht. }
    rewrite Hr in Hnd. apply NoDup_remove_2 in Hnd.
    apply Forall_forall. intros r' Hr' Hs'. apply Hnd. apply in_or_app. right.
    now apply (filed_tags_In l2 r' s).
Qed.

Lemma combine_lossless_witness :
  exists now srcs w',
    _combine_data
      [ sample_result "social_media" (Some (VInt 1)) None "t1";
        sample_result "industry_trends" None (Some (VStr "late")) "t2" ] sample_world =
      (Ok (VDict [ ("timestamp"%string, now); ("sources"%string, VDict srcs) ]), w') /\
    dict_get srcs "social_media" =
      Some (entry_of (sample_result "social_media" (Some (VInt 1)) None "t1")).
Proof.
  apply (combine_lossless _ _ "social_media" sample_world).
  - repeat constructor; simpl; intuition discriminate.
  - left. reflexivity.
  - reflexivity.
  - reflexivity.
Defined.

End CombineOrder.

(** ** What a fetcher leaves alone and what it always gives *)

Section FetcherEdges.

Import MarketAnalyzer.

(** X3. On every path (payload, bad status, transport fault, body that does
    not parse, no usable session) a network fetcher reads the clock once and
    changes nothing else: it does not close or replace the session, and it
    does not log. *)
Theorem fetch_changes_only_clock (f : fetcher) (w : world) :
  snd (fetch f w) = with_tick (S (tick w)) w.
Proof.
  destruct (fetch_returns f w) as (r & Hrun & _). now rewrite Hrun.
Qed.

(** X4. The result of a network fetcher has exactly one of [data] and
    [error], in every world: either a payload and no error, or no data and an
    error that is a string. *)
Theorem fetch_data_xor_error (f : fetcher) (w : world) :
  exists r,
    fst (fetch f w) = Ok r /\
    ((exists payload, data r = Some payload /\ error r = None) \/
     (data r = None /\ exists m, error r = Some (VStr m))).
Proof.
  destruct (fetch_returns f w) as (r & Hrun & _ & _ & Hopen & Hclosed).
  exists r. split; [now rewrite Hrun|].
  destruct (session_open w) eqn:Hs; [|right; now apply Hclosed].
  destruct (Hopen eq_refl) as (Hc & Hst & Hp & Hok).
  destruct (network w (url_of f)) as [e|st [payload|e]] eqn:Hnet.
  - right. destruct (Hc e eq_refl). eauto.
  - destruct (Z.eqb_spec st 200) as [->|Hne].
    + left. destruct (Hok payload eq_refl). eauto.
    + right. destruct (Hst st _ eq_refl Hne). eauto.
  - destruct (Z.eqb_spec st 200) as [->|Hne].
    + right. destruct (Hp e eq_refl). eauto.
    + right. destruct (Hst st _ eq_refl Hne). eauto.
Qed.

Lemma fetch_closed_result (f : fetcher) (w : world) :
  session_open w = false ->
  fst (fetch f w) =
    Ok {| source := Some (tag_of f);
          data := None;
          error := Some (VStr (match self_session w with
                               | None => "'NoneType' object has no attribute 'get'"
                               | Some _ => "Session is closed"
                               end));
          timestamp := Some (VStr (clock w (tick w))) |}.
Proof.
  unfold session_open. intros Hs.
  destruct f;
    unfold fetch, _gather_industry_trends, _gather_competitor_data, _gather_market_demands,
      try_except, bind, session_get, response_json, lift, datetime_now_isoformat, ret;
    cbn [getitem api_endpoints find fst String.eqb Ascii.eqb Bool.eqb ret tag_of];
    (destruct (self_session w) as [i|]; [rewrite Hs|]); reflexivity.
Qed.

(** X5. Without an open session a network fetcher does not raise and does
    not look at the network: it returns an error result, with the attribute
    error of [None] while [session] was never set, and with
    [Session is closed] once the session has been closed. *)
Theorem fetch_without_open_session (f : fetcher) (w : world) :
  session_open w = false ->
  fst (fetch f w) =
    Ok {| source := Some (tag_of f);
          data := None;
          error := Some (VStr (match self_session w with
                               | None => "'NoneType' object has no attribute 'get'"
                               | Some _ => "Session is closed"
                               end));
          timestamp := Some (VStr (clock w (tick w))) |}.
Proof. apply fetch_closed_result. Qed.

Lemma fetch_without_open_session_witness :
  fst (fetch CompetitorData failing_world) =
    Ok {| source := Some "competitor_data"%string;
          data := None;
          error := Some (VStr "'NoneType' object has no attribute 'get'");
          timestamp := Some (VStr "2024-01-01T00:00:00") |}.
Proof. apply (fetch_without_open_session CompetitorData failing_world). reflexivity. Defined.

End FetcherEdges.

(** ** What the bundle says about each source *)

Section BundleEntries.

Import MarketAnalyzer.

(** The entry of a network source in the bundle is the entry of a result of
    its fetcher, captured from its endpoint. *)
Lemma bundle_entry (f : fetcher) (w : world) :
  interrupt w = None ->
  exists bundle w' r,
    gather_data w = (Ok bundle, w') /\
    source_entry bundle (tag_of f) = Some (entry_of r) /\
    captured w (url_of f) r.
Proof.
  intros Hint. pose proof (gather_data_spec w) as H.
  destruct (gather_data w) as [[bundle|e] w'];
    [|destruct H as (_ & n & Hn); congruence].
  destruct H as ((r1 & r2 & r3 & r4 & H1 & H2 & H3 & H4 & ->) & _).
  exists (VDict [ ("timestamp"%string, VStr (clock w (tick w + 4)));
                  ("sources"%string,
                   VDict [ ("industry_trends"%string, entry_of r1);
                           ("competitor_data"%string, entry_of r2);
                           ("market_demands"%string, entry_of r3);
                           ("social_media"%string, entry_of r4) ]) ]), w'.
  destruct f; [exists r1|exists r2|exists r3];
    (split; [reflexivity|]); (split; [reflexivity|]).
  - apply (settles_fetch _ _ IndustryTrends _ H1), opened_session_open.
  - apply (settles_fetch _ _ CompetitorData _ H2), opened_session_open.
  - apply (settles_fetch _ _ MarketDemands _ H3), opened_session_open.
Qed.

(** X6. In the bundle that [gather_data] returns, the entry of each network
    source reports what its endpoint answered, whatever the other endpoints
    did and in whatever order the tasks settled: a 200 response that parses
    gives its payload under [data] and [None] under [error]; any other status
    gives the empty dict and [Failed to fetch data: <status>]; a transport
    fault or a body that does not parse gives the empty dict and the message
    of the exception. *)
Theorem bundle_reports_endpoint (f : fetcher) (w : world) :
  interrupt w = None ->
  exists bundle w' entry,
    gather_data w = (Ok bundle, w') /\
    source_entry bundle (tag_of f) = Some entry /\
    (forall payload, network w (url_of f) = Responds 200 (Ok payload) ->
       field entry "data" = Some payload /\ field entry "error" = Some VNone) /\
    (forall st b, network w (url_of f) = Responds st b -> st <> 200 ->
       field entry "data" = Some (VDict []) /\
       field entry "error" =
         Some (VStr (String.append "Failed to fetch data: " (str_of_int st)))) /\
    (forall e, network w (url_of f) = ConnectFails e \/
               network w (url_of f) = Responds 200 (Raise e) ->
       field entry "data" = Some (VDict []) /\ field entry "error" = Some (VStr (str e))).
Proof.
  intros Hint. destruct (bundle_entry f w Hint) as (bundle & w' & r & Hrun & Hentry & Hcap).
  exists bundle, w', (entry_of r). split; [assumption|]. split; [assumption|].
  destruct Hcap as (Hc & Hst & Hp & Hok). unfold entry_of. cbn.
  split; [|split].
  - intros payload Hn. destruct (Hok payload Hn) as (-> & ->). now split.
  - intros st b Hn Hne. destruct (Hst st b Hn Hne) as (-> & ->). now split.
  - intros e [Hn|Hn];
      [destruct (Hc e Hn) as (-> & ->)|destruct (Hp e Hn) as (-> & ->)]; now split.
Qed.

Lemma bundle_reports_endpoint_witness :
  exists bundle w' entry,
    gather_data mixed_world = (Ok bundle, w') /\
    source_entry bundle "competitor_data" = Some entry /\
    (forall payload,
       network mixed_world (url_of CompetitorData) = Responds 200 (Ok payload) ->
       field entry "data" = Some payload /\ field entry "error" = Some VNone) /\
    (forall st b, network mixed_world (url_of CompetitorData) = Responds st b -> st <> 200 ->
       field entry "data" = Some (VDict []) /\
       field entry "error" =
         Some (VStr (String.append "Failed to fetch data: " (str_of_int st)))) /\
    (forall e, network mixed_world (url_of CompetitorData) = ConnectFails e \/
               network mixed_world (url_of CompetitorData) = Responds 200 (Raise e) ->
       field entry "data" = Some (VDict []) /\ field entry "error" = Some (VStr (str e))).
Proof. apply (bundle_reports_endpoint CompetitorData mixed_world). reflexivity. Defined.

(** X7. The entry of social media is in every bundle, with the payload
    [{'trends': []}], [None] under [error] and one of the four clock readings
    of the gather as timestamp, whatever the network does. *)
Theorem bundle_social_media_entry (w : world) :
  interrupt w = None ->
  exists bundle w' i,
    gather_data w = (Ok bundle, w') /\
    (tick w <= i < tick w + 4)%nat /\
    source_entry bundle "social_media" =
      Some (VDict [ ("data"%string, VDict [("trends"%string, VList [])]);
                    ("error"%string, VNone);
                    ("timestamp"%string, VStr (clock w i)) ]).
Proof.
  intros Hint. pose proof (gather_data_spec w) as H.
  destruct (gather_data w) as [[bundle|e] w'];
    [|destruct H as (_ & n & Hn); congruence].
  destruct H as ((r1 & r2 & r3 & r4 & H1 & H2 & H3 & H4 & ->) & _).
  destruct (settles_social_media _ _ _ H4) as (_ & Hd & He & i & Hi & Hts).
  eexists. exists w', i. split; [reflexivity|]. split; [exact Hi|].
  cbn. unfold entry_of. now rewrite Hd, He, Hts.
Qed.

Lemma bundle_social_media_entry_witness :
  exists bundle w' i,
    gather_data failing_world = (Ok bundle, w') /\
    (tick failing_world <= i < tick failing_world + 4)%nat /\
    source_entry bundle "social_media" =
      Some (VDict [ ("data"%string, VDict [("trends"%string, VList [])]);
                    ("error"%string, VNone);
                    ("timestamp"%string, VStr (clock failing_world i)) ]).
Proof. apply (bundle_social_media_entry failing_world). reflexivity. Defined.

Lemma captured_same_answer (w1 w2 : world) (url : string) (r1 r2 : SourceResult) :
  captured w1 url r1 -> captured w2 url r2 -> network w1 url = network w2 url ->
  data r1 = data r2 /\ error r1 = error r2.
Proof.
  intros (Hc1 & Hs1 & Hp1 & Hk1) (Hc2 & Hs2 & Hp2 & Hk2) Hnet.
  destruct (network w1 url) as [e|st [payload|e]] eqn:Hn1; symmetry in Hnet.
  - destruct (Hc1 e eq_refl) as (-> & ->), (Hc2 e Hnet) as (-> & ->). auto.
  - destruct (Z.eqb_spec st 200) as [->|Hne].
    + destruct (Hk1 payload eq_refl) as (-> & ->), (Hk2 payload Hnet) as (-> & ->). auto.
    + destruct (Hs1 st _ eq_refl Hne) as (-> & ->), (Hs2 st _ Hnet Hne) as (-> & ->). auto.
  - destruct (Z.eqb_spec st 200) as [->|Hne].
    + destruct (Hp1 e eq_refl) as (-> & ->), (Hp2 e Hnet) as (-> & ->). auto.
    + destruct (Hs1 st _ eq_refl Hne) as (-> & ->), (Hs2 st _ Hnet Hne) as (-> & ->). auto.
Qed.

(** X8. The [data] and the [error] of a source's entry depend on nothing but
    the answer of that source's endpoint: two gathers in worlds where this
    endpoint answers the same give the same [data] and [error] for the
    source, even if the other endpoints, the order in which the tasks
    settle, the clock or the earlier sessions differ. *)
Theorem bundle_entry_own_endpoint (f : fetcher) (w1 w2 : world) :
  interrupt w1 = None -> interrupt w2 = None ->
  network w1 (url_of f) = network w2 (url_of f) ->
  exists bundle1 w1' bundle2 w2' entry1 entry2,
    gather_data w1 = (Ok bundle1, w1') /\ gather_data w2 = (Ok bundle2, w2') /\
    source_entry bundle1 (tag_of f) = Some entry1 /\
    source_entry bundle2 (tag_of f) = Some entry2 /\
    field entry1 "data" = field entry2 "data" /\
    field entry1 "error" = field entry2 "error".
Proof.
  intros Hi1 Hi2 Hnet.
  destruct (bundle_entry f w1 Hi1) as (b1 & w1' & r1 & Hrun1 & He1 & Hc1).
  destruct (bundle_entry f w2 Hi2) as (b2 & w2' & r2 & Hrun2 & He2 & Hc2).
  exists b1, w1', b2, w2', (entry_of r1), (entry_of r2).
  destruct (captured_same_answer _ _ _ _ _ Hc1 Hc2 Hnet) as (Hd & He).
  repeat split; auto; unfold entry_of; cbn; [now rewrite Hd|now rewrite He].
Qed.

Lemma bundle_entry_own_endpoint_witness :
  exists bundle1 w1' bundle2 w2' entry1 entry2,
    gather_data failing_world = (Ok bundle1, w1') /\
    gather_data (with_schedule [1; 1; 1]%nat failing_world) = (Ok bundle2, w2') /\
    source_entry bundle1 "market_demands" = Some entry1 /\
    source_entry bundle2 "market_demands" = Some entry2 /\
    field entry1 "data" = field entry2 "data" /\
    field entry1 "error" = field entry2 "error".
Proof.
  apply (bundle_entry_own_endpoint MarketDemands failing_world
           (with_schedule [1; 1; 1]%nat failing_world)); reflexivity.
Defined.

End BundleEntries.

(** ** Sessions across gathers *)

Section SessionLifetime.

Import MarketAnalyzer.

Lemma gather_data_released (w : world) : released w (snd (gather_data w)).
Proof.
  pose proof (gather_data_spec w) as H.
  destruct (gather_data w) as [[bundle|e] w']; simpl.
  - now destruct H as (_ & Hrel & _).
  - now destruct H as (Hrel & _).
Qed.

(** X9. Every call of [gather_data] opens a session of its own and leaves it
    closed, whether it returns or raises: after [n] calls in a row the
    sessions are those there were before, untouched, followed by [n] closed
    ones, and the session under [self.session] is closed. *)
Theorem gathers_leave_no_session_open (n : nat) (w : world) :
  sessions (after_gathers n w) = sessions w ++ repeat false n /\
  session_open (after_gathers (S n) w) = false.
Proof.
  split.
  - induction n as [|n IH]; simpl.
    + now rewrite app_nil_r.
    + destruct (gather_data_released (after_gathers n w)) as (Hs & _).
      unfold after_gathers in *. rewrite Hs, IH, <- app_assoc. f_equal.
      symmetry. apply (repeat_cons n false).
  - simpl. now destruct (gather_data_released (after_gathers n w)) as (_ & _ & Hc).
Qed.

(** X10. Once [gather_data] is over, by either exit, its session is of no use
    to a fetcher: a network fetcher run afterwards returns the error
    [Session is closed] and no data. *)
Theorem fetch_after_gather (f : fetcher) (w : world) :
  exists r,
    fst (fetch f (snd (gather_data w))) = Ok r /\
    source r = Some (tag_of f) /\
    data r = None /\
    error r = Some (VStr "Session is closed").
Proof.
  destruct (gather_data_released w) as (_ & Hself & Hclosed).
  eexists. split; [apply (fetch_closed_result f _ Hclosed)|].
  rewrite Hself. repeat split.
Qed.

End SessionLifetime.

(** ** A fault at the await of the gather *)

Section Interrupted.

Context {A : Type}.




End Interrupted.

Section InterruptedGather.

Import MarketAnalyzer.


End InterruptedGather.

(** ** What a fault of a stage looks like from outside *)

Section StageFaults.

Import MarketAnalyzer.

(** X11. For any facet and recommendation methods, a report that
    [analyze_data] returns is complete: no facet call faulted, the report
    has exactly the keys [timestamp], [analysis] and [recommendations], and
    [analysis] has exactly the six facet keys, in the order of the calls. *)
Theorem analyze_data_report_shape
  (self : Methods) (data : value) (w : world) (report : value) (w' : world) :
  analyze_data self data w = (Ok report, w') ->
  first_fault (facet_calls self data) w = None /\
  exists now trends competitors opportunities risks sentiment growth recommendations,
    report =
      VDict [ ("timestamp"%string, now);
              ("analysis"%string,
               VDict [ ("market_trends"%string, trends);
                       ("competitor_analysis"%string, competitors);
                       ("opportunity_areas"%string, opportunities);
                       ("risk_factors"%string, risks);
                       ("market_sentiment"%string, sentiment);
                       ("growth_potential"%string, growth) ]);
              ("recommendations"%string, recommendations) ].
Proof.
  unfold analyze_data, try_except, analysis_of, report_of, facet_calls,
    datetime_now_isoformat.
  cbn [first_fault]. rewrite !bind_run.
  destruct (_analyze_trends self data w) as [[a1|e1] w1]; [|discriminate].
  rewrite !bind_run.
  destruct (_analyze_competitors self data w1) as [[a2|e2] w2]; [|discriminate].
  rewrite !bind_run.
  destruct (MarketAnalyzer._identify_opportunities self data w2) as [[a3|e3] w3];
    [|discriminate].
  rewrite !bind_run.
  destruct (MarketAnalyzer._assess_risks self data w3) as [[a4|e4] w4]; [|discriminate].
  rewrite !bind_run.
  destruct (_analyze_sentiment self data w4) as [[a5|e5] w5]; [|discriminate].
  rewrite !bind_run.
  destruct (_assess_growth_potential self data w5) as [[a6|e6] w6]; [|discriminate].
  cbn [ret]. rewrite !bind_run.
  destruct (MarketAnalyzer._generate_recommendations self _ _) as [[recs|e7] w7];
    [|discriminate].
  intros H. injection H as <- <-. split; [reflexivity|].
  do 8 eexists. reflexivity.
Qed.

Lemma analyze_data_report_shape_witness :
  first_fault (facet_calls methods (VList [])) sample_world = None /\
  exists now trends competitors opportunities risks sentiment growth recommendations,
    VDict [ ("timestamp"%string, VStr (clock sample_world (tick sample_world)));
            ("analysis"%string, degraded_analysis);
            ("recommendations"%string, VList []) ] =
      VDict [ ("timestamp"%string, now);
              ("analysis"%string,
               VDict [ ("market_trends"%string, trends);
                       ("competitor_analysis"%string, competitors);
                       ("opportunity_areas"%string, opportunities);
                       ("risk_factors"%string, risks);
                       ("market_sentiment"%string, sentiment);
                       ("growth_potential"%string, growth) ]);
              ("recommendations"%string, recommendations) ].
Proof.
  apply (analyze_data_report_shape methods (VList []) sample_world _
           (with_tick (S (tick sample_world)) sample_world)).
  reflexivity.
Defined.

(** X12. When a facet of the analysis faults during a cycle, [run] returns
    the error dict whose message is that of the fault with the prefix
    [Error analyzing market data: ], logs that message once more prefixed
    with [Error in market research: ], and goes no further: the trend
    detector is not called, whatever it is. *)
Theorem run_reports_analysis_fault
  (market_analyzer : Methods) (trend_detector : TrendDetector) (w : world) :
  interrupt w = None ->
  exists bundle w1,
    gather_data w = (Ok bundle, w1) /\
    forall e w2,
      first_fault (facet_calls market_analyzer bundle) w1 = Some (e, w2) ->
      MarketResearchAgent.run (MarketResearchAgent.stages market_analyzer trend_detector) w =
        (Ok (VDict
           [ ("status"%string, VStr "error");
             ("error"%string,
              VStr (String.append "Error analyzing market data: " (str e))) ]),
         with_log
           (log w2 ++
            [String.append "Error in market research: "
               (String.append "Error analyzing market data: " (str e))]) w2).
Proof.
  intros Hint. pose proof (gather_data_spec w) as H.
  destruct (gather_data w) as [[bundle|e0] w1] eqn:Hrun;
    [|destruct H as (_ & n & Hn); congruence].
  exists bundle, w1. split; [reflexivity|]. intros e w2 Hfault.
  unfold MarketResearchAgent.run, try_except, MarketResearchAgent.stages.
  cbn [MarketResearchAgent._gather_market_data MarketResearchAgent._analyze_market_data].
  rewrite bind_run, Hrun, bind_run.
  unfold analyze_data, try_except.
  rewrite bind_run, (analysis_of_fault _ _ _ _ _ Hfault). reflexivity.
Qed.

Lemma run_reports_analysis_fault_witness :
  exists bundle w1,
    gather_data failing_world = (Ok bundle, w1) /\
    forall e w2,
      first_fault (facet_calls sentiment_faults bundle) w1 = Some (e, w2) ->
      MarketResearchAgent.run (MarketResearchAgent.stages sentiment_faults sample_detector)
        failing_world =
        (Ok (VDict
           [ ("status"%string, VStr "error");
             ("error"%string,
              VStr (String.append "Error analyzing market data: " (str e))) ]),
         with_log
           (log w2 ++
            [String.append "Error in market research: "
               (String.append "Error analyzing market data: " (str e))]) w2).
Proof.
  apply (run_reports_analysis_fault sentiment_faults sample_detector failing_world).
  reflexivity.
Defined.

Example run_analysis_fault :
  fst (MarketResearchAgent.run (MarketResearchAgent.stages sentiment_faults faulty_detector)
         failing_world) =
    Ok (VDict [ ("status"%string, VStr "error");
                ("error"%string,
                 VStr "Error analyzing market data: division by zero") ]) /\
  log (snd (MarketResearchAgent.run
              (MarketResearchAgent.stages sentiment_faults faulty_detector) failing_world)) =
    ["Error in market research: Error analyzing market data: division by zero"%string].
Proof. split; reflexivity. Qed.

(** X13. A fault of the trend detector reaches the result of [run] as it
    is: the error dict carries the message of the fault without any prefix,
    and the log gets it with the prefix [Error in market research: ]. This
    holds for [detect_trends] and, when that one returned, for
    [identify_opportunities]. *)
Theorem run_reports_detector_fault (trend_detector : TrendDetector) (w : world) :
  interrupt w = None ->
  exists bundle w1,
    gather_data w = (Ok bundle, w1) /\
    (forall e w3,
       detect_trends trend_detector bundle (with_tick (S (tick w1)) w1) = (Raise e, w3) ->
       MarketResearchAgent.run (MarketResearchAgent.stages methods trend_detector) w =
         (Ok (VDict [ ("status"%string, VStr "error"); ("error"%string, VStr (str e)) ]),
          with_log (log w3 ++ [String.append "Error in market research: " (str e)]) w3)) /\
    (forall trends w3 e w4,
       detect_trends trend_detector bundle (with_tick (S (tick w1)) w1) = (Ok trends, w3) ->
       identify_opportunities trend_detector trends w3 = (Raise e, w4) ->
       MarketResearchAgent.run (MarketResearchAgent.stages methods trend_detector) w =
         (Ok (VDict [ ("status"%string, VStr "error"); ("error"%string, VStr (str e)) ]),
          with_log (log w4 ++ [String.append "Error in market research: " (str e)]) w4)).
Proof.
  intros Hint. pose proof (gather_data_spec w) as H.
  destruct (gather_data w) as [[bundle|e0] w1] eqn:Hrun;
    [|destruct H as (_ & n & Hn); congruence].
  exists bundle, w1. split; [reflexivity|].
  unfold MarketResearchAgent.run, try_except, MarketResearchAgent.stages.
  cbn [MarketResearchAgent._gather_market_data MarketResearchAgent._analyze_market_data
       MarketResearchAgent._detect_trends MarketResearchAgent._identify_opportunities
       MarketResearchAgent._generate_insights].
  rewrite bind_run, Hrun, bind_run, analyze_data_degraded. split.
  - intros e w3 Hd. rewrite bind_run, Hd. reflexivity.
  - intros trends w3 e w4 Hd Hi. rewrite bind_run, Hd, bind_run, Hi. reflexivity.
Qed.

Lemma run_reports_detector_fault_witness :
  exists bundle w1,
    gather_data failing_world = (Ok bundle, w1) /\
    (forall e w3,
       detect_trends faulty_detector bundle (with_tick (S (tick w1)) w1) = (Raise e, w3) ->
       MarketResearchAgent.run (MarketResearchAgent.stages methods faulty_detector)
         failing_world =
         (Ok (VDict [ ("status"%string, VStr "error"); ("error"%string, VStr (str e)) ]),
          with_log (log w3 ++ [String.append "Error in market research: " (str e)]) w3)) /\
    (forall trends w3 e w4,
       detect_trends faulty_detector bundle (with_tick (S (tick w1)) w1) = (Ok trends, w3) ->
       identify_opportunities faulty_detector trends w3 = (Raise e, w4) ->
       MarketResearchAgent.run (MarketResearchAgent.stages methods faulty_detector)
         failing_world =
         (Ok (VDict [ ("status"%string, VStr "error"); ("error"%string, VStr (str e)) ]),
          with_log (log w4 ++ [String.append "Error in market research: " (str e)]) w4)).
Proof. apply (run_reports_detector_fault faulty_detector failing_world). reflexivity. Defined.



End StageFaults.

(** ** Timestamps and the order of settlement *)

Section SettlementOrder.

Context {A : Type}.

Lemma settles_at_later (w0 : world) (order : list nat) (j i : nat) (t : M A) (a : A) :
  settles_at w0 order i t a -> settles_at w0 (order ++ [j]) i t a.
Proof.
  intros (w & k & Hf & Hk & Ht & Hrun). exists w, k.
  split; [assumption|]. split; [|split; assumption].
  rewrite nth_error_app1; [assumption|]. apply nth_error_Some. congruence.
Qed.

Lemma cells_at_later (w0 : world) (order : list nat) (j i : nat)
  (tasks : list (M A)) (cells : list (cell A)) :
  cells_at w0 order i tasks cells -> cells_at w0 (order ++ [j]) i tasks cells.
Proof.
  induction 1; constructor; auto. now apply settles_at_later.
Qed.

Lemma cells_at_all_pending (w0 : world) (tasks : list (M A)) (i : nat) :
  cells_at w0 [] i tasks (map Pending tasks).
Proof.
  revert i. induction tasks; intros i; simpl; constructor; auto.
Qed.

Lemma results_at_settled (w0 : world) (order : list nat) (i : nat)
  (tasks : list (M A)) (cells : list (cell A)) :
  cells_at w0 order i tasks cells -> pending_count cells = O ->
  results_at w0 order i tasks (results_of cells).
Proof.
  induction 1; simpl; intros Hp; [constructor|discriminate|].
  constructor; auto.
Qed.

(** One round, with the place of the settled task in the order. *)
Lemma settle_nth_at (w0 : world) (order : list nat) (i : nat)
  (tasks : list (M A)) (cells : list (cell A)) :
  cells_at w0 order i tasks cells -> Forall quiet tasks ->
  forall k w, frame w0 w -> tick w = (tick w0 + length order)%nat ->
  (k < pending_count cells)%nat ->
  exists cells' w' j,
    settle_nth k i cells w = (Ok cells', w') /\
    cells_at w0 (order ++ [j]) i tasks cells' /\
    frame w0 w' /\
    tick w' = S (tick w) /\
    settled w' = settled w ++ [j] /\
    S (pending_count cells') = pending_count cells.
Proof.
  induction 1 as [i|i t tasks cells Hrest IH|i t a tasks cells Ha Hrest IH];
    intros Hq k w Hf Ht Hk; simpl in Hk; [lia| |];
    inversion Hq as [|? ? Hqt Hqrest]; subst.
  - destruct k as [|k'].
    + destruct (Hqt w) as (a & Hrun).
      exists (Settled a :: cells),
             (with_settled (settled w ++ [i]) (with_tick (S (tick w)) w)), i.
      simpl. unfold bind. rewrite Hrun. simpl.
      repeat split; try apply Hf; auto.
      constructor; [|now apply cells_at_later].
      exists w, (length order). repeat split; try apply Hf; auto.
      * now rewrite nth_error_app2, Nat.sub_diag by lia.
      * now rewrite Hrun.
    + destruct (IH Hqrest k' w Hf Ht) as (cells' & w' & j & Hrun & Hc & Hf' & Ht' & Hs & Hp);
        [lia|].
      exists (Pending t :: cells'), w', j.
      simpl. unfold bind. rewrite Hrun. simpl.
      repeat split; try apply Hf'; auto; try lia.
      now constructor.
  - destruct (IH Hqrest k w Hf Ht) as (cells' & w' & j & Hrun & Hc & Hf' & Ht' & Hs & Hp);
      [lia|].
    exists (Settled a :: cells'), w', j.
    simpl. unfold bind. rewrite Hrun. simpl.
    repeat split; try apply Hf'; auto.
    constructor; [now apply settles_at_later|assumption].
Qed.

(** A loop that runs to its end has settled every task, each at the clock
    reading that its place in the order of settlement gives. *)
Lemma event_loop_at (w0 : world) (tasks : list (M A)) :
  Forall quiet tasks ->
  forall rounds cells w order cells' w',
  cells_at w0 order O tasks cells -> frame w0 w ->
  pending_count cells = rounds ->
  tick w = (tick w0 + length order)%nat ->
  settled w = settled w0 ++ order ->
  event_loop rounds cells w = (Ok cells', w') ->
  exists order',
    cells_at w0 order' O tasks cells' /\ pending_count cells' = O /\
    settled w' = settled w0 ++ order'.
Proof.
  intros Hq. induction rounds as [|rounds IH];
    intros cells w order cells' w' Hcells Hf Hp Ht Hs Hrun.
  - simpl in Hrun. injection Hrun as <- <-. exists order. auto.
  - simpl in Hrun. unfold bind at 1 in Hrun.
    destruct (check_interrupt_cases (settled_count cells) w) as [Hc | (e0 & Hc & _)];
      rewrite Hc in Hrun; [|discriminate].
    unfold bind at 1 in Hrun.
    destruct (next_pick_spec (pending_count cells) w) as (k & s & Hpick & Hk); [lia|].
    rewrite Hpick in Hrun. unfold bind at 1 in Hrun.
    assert (Hf1 : frame w0 (with_schedule s w))
      by (eapply frame_trans; [exact Hf|apply frame_with_schedule]).
    destruct (settle_nth_at w0 order O tasks cells Hcells Hq k (with_schedule s w) Hf1 Ht Hk)
      as (cells1 & w1 & j & Hrun1 & Hcells1 & Hf' & Ht' & Hs' & Hp').
    rewrite Hrun1 in Hrun.
    apply (IH cells1 w1 (order ++ [j]) cells' w'); auto.
    + lia.
    + rewrite Ht', length_app. simpl. lia.
    + rewrite Hs'. simpl. now rewrite Hs, app_assoc.
Qed.

Lemma asyncio_gather_at (tasks : list (M A)) (w : world) (results : list A) (w' : world) :
  Forall quiet tasks ->
  asyncio_gather tasks w = (Ok results, w') ->
  exists order, results_at w order O tasks results /\ settled w' = settled w ++ order.
Proof.
  intros Hq Hrun. unfold asyncio_gather, bind in Hrun.
  pose proof (event_loop_at w tasks Hq (length tasks) (map Pending tasks) w []) as Hloop.
  destruct (event_loop (length tasks) (map Pending tasks) w) as [[cells|e0] w1];
    [|discriminate].
  destruct (Hloop cells w1 (cells_at_all_pending w tasks O) (frame_refl w)
              (pending_count_all tasks) (eq_sym (Nat.add_0_r _)) (eq_sym (app_nil_r _))
              eq_refl) as (order & Hcells & Hp & Hs).
  destruct (check_interrupt_cases (settled_count cells) w1) as [Hc | (e & Hc & _)];
    rewrite Hc in Hrun; [|discriminate].
  injection Hrun as <- <-. exists order. split; [|assumption].
  now apply results_at_settled.
Qed.

End SettlementOrder.

Section GatherTimestamps.

Import MarketAnalyzer.

Lemma settles_at_fetch (w0 : world) (order : list nat) (j : nat) (f : fetcher)
  (r : SourceResult) :
  settles_at w0 order j (fetch f) r ->
  source r = Some (tag_of f) /\
  exists k, nth_error order k = Some j /\
            timestamp r = Some (VStr (clock w0 (tick w0 + k))).
Proof.
  intros (w & k & Hf & Hk & Ht & Hrun).
  destruct (fetch_returns f w) as (r' & Hrun' & Hsrc & Hts & _).
  rewrite Hrun' in Hrun. simpl in Hrun. injection Hrun as <-.
  split; [assumption|]. exists k. split; [assumption|].
  destruct Hf as (Hclock & _). now rewrite Hts, Hclock, Ht.
Qed.

Lemma settles_at_social_media (w0 : world) (order : list nat) (j : nat) (r : SourceResult) :
  settles_at w0 order j _gather_social_media_trends r ->
  source r = Some "social_media"%string /\
  exists k, nth_error order k = Some j /\
            timestamp r = Some (VStr (clock w0 (tick w0 + k))).
Proof.
  intros (w & k & Hf & Hk & Ht & Hrun). simpl in Hrun. injection Hrun as <-.
  split; [reflexivity|]. exists k. split; [assumption|].
  destruct Hf as (Hclock & _). simpl. now rewrite Hclock, Ht.
Qed.

(** X15. The timestamp of each entry is the clock reading taken when its
    fetch settled: the task that settles in place [k] of the gather gives
    its source the reading [k] after the start, and the bundle itself the
    reading after the four. The order of settlement is free; the order of
    the entries is not: it is that of the tasks. *)
Theorem entry_timestamps_follow_settlement (w : world) :
  interrupt w = None ->
  exists srcs w' order,
    gather_data w =
      (Ok (VDict [ ("timestamp"%string, VStr (clock w (tick w + 4)));
                   ("sources"%string, VDict srcs) ]), w') /\
    keys srcs = configured_sources /\
    settled w' = settled w ++ order /\
    Permutation order [0; 1; 2; 3]%nat /\
    forall j tag, nth_error configured_sources j = Some tag ->
      exists k v,
        nth_error order k = Some j /\
        dict_get srcs tag = Some v /\
        field v "timestamp" = Some (VStr (clock w (tick w + k))).
Proof.
  intros Hint.
  unfold gather_data, bind at 1, ClientSession, try_finally. fold (opened w).
  unfold bind at 1.
  pose proof (asyncio_gather_spec
                [ _gather_industry_trends; _gather_competitor_data;
                  _gather_market_demands; _gather_social_media_trends ] (opened w)
                gather_tasks_quiet) as Hg.
  pose proof (asyncio_gather_at
                [ _gather_industry_trends; _gather_competitor_data;
                  _gather_market_demands; _gather_social_media_trends ] (opened w))
    as Hat.
  destruct (asyncio_gather _ (opened w)) as [[results|e] w2];
    [|destruct Hg as (_ & n & Hn); cbn in Hn; congruence].
  destruct Hg as (_ & Hf & Ht & order0 & Hs0 & Hperm).
  destruct (Hat results w2 gather_tasks_quiet eq_refl) as (order & Hres & Hs).
  assert (order0 = order) by (rewrite Hs0 in Hs; now apply app_inv_head in Hs).
  subst order0. clear Hat Hs0.
  inversion Hres as [|? ? r1 ? ? H1 Hres1]; subst; clear Hres.
  inversion Hres1 as [|? ? r2 ? ? H2 Hres2]; subst; clear Hres1.
  inversion Hres2 as [|? ? r3 ? ? H3 Hres3]; subst; clear Hres2.
  inversion Hres3 as [|? ? r4 ? ? H4 Hres4]; subst; clear Hres3.
  inversion Hres4; subst; clear Hres4.
  destruct (settles_at_fetch _ _ _ IndustryTrends _ H1) as (S1 & k1 & K1 & T1).
  destruct (settles_at_fetch _ _ _ CompetitorData _ H2) as (S2 & k2 & K2 & T2).
  destruct (settles_at_fetch _ _ _ MarketDemands _ H3) as (S3 & k3 & K3 & T3).
  destruct (settles_at_social_media _ _ _ _ H4) as (S4 & k4 & K4 & T4).
  destruct Hf as (Hclock & Hnet & Hint' & Hsess & Hself & Hlog).
  unfold _combine_data, bind, datetime_now_isoformat, ret, session_close.
  cbn [self_session with_tick]. rewrite Hself. cbn [opened with_sessions self_session].
  cbn [fold_left]. unfold combine_step. rewrite S1, S2, S3, S4.
  cbn [tag_of str_truthy dict_set String.eqb Ascii.eqb Bool.eqb].
  cbn [opened with_sessions clock tick settled length] in *.
  do 2 eexists. exists order. split.
  { rewrite Hclock, Ht. reflexivity. }
  split; [reflexivity|]. split; [exact Hs|]. split; [exact Hperm|].
  intros j tag Hj.
  destruct j as [|[|[|[|j]]]]; cbn in Hj; try (destruct j; discriminate);
    injection Hj as <-.
  - exists k1, (entry_of r1). split; [assumption|]. split; [reflexivity|].
    unfold entry_of. cbn. now rewrite T1.
  - exists k2, (entry_of r2). split; [assumption|]. split; [reflexivity|].
    unfold entry_of. cbn. now rewrite T2.
  - exists k3, (entry_of r3). split; [assumption|]. split; [reflexivity|].
    unfold entry_of. cbn. now rewrite T3.
  - exists k4, (entry_of r4). split; [assumption|]. split; [reflexivity|].
    unfold entry_of. cbn. now rewrite T4.
Qed.

Lemma entry_timestamps_follow_settlement_witness :
  exists srcs w' order,
    gather_data mixed_world =
      (Ok (VDict [ ("timestamp"%string, VStr (clock mixed_world (tick mixed_world + 4)));
                   ("sources"%string, VDict srcs) ]), w') /\
    keys srcs = configured_sources /\
    settled w' = settled mixed_world ++ order /\
    Permutation order [0; 1; 2; 3]%nat /\
    forall j tag, nth_error configured_sources j = Some tag ->
      exists k v,
        nth_error order k = Some j /\
        dict_get srcs tag = Some v /\
        field v "timestamp" = Some (VStr (clock mixed_world (tick mixed_world + k))).
Proof. apply (entry_timestamps_follow_settlement mixed_world). reflexivity. Defined.

(** X16. [gather_data] logs nothing, on either exit: a fetch that fails shows
    in the [error] of its entry and not in the log. *)
Theorem gather_data_logs_nothing (w : world) :
  log (snd (gather_data w)) = log w.
Proof.
  unfold gather_data, bind at 1, ClientSession, try_finally. fold (opened w).
  unfold bind at 1.
  pose proof (asyncio_gather_spec
                [ _gather_industry_trends; _gather_competitor_data;
                  _gather_market_demands; _gather_social_media_trends ] (opened w)
                gather_tasks_quiet) as Hg.
  destruct (asyncio_gather _ (opened w)) as [[results|e] w2].
  - destruct Hg as (_ & (_ & _ & _ & _ & Hself & Hlog) & _).
    unfold _combine_data, bind, datetime_now_isoformat, ret, session_close.
    cbn [self_session with_tick]. rewrite Hself. cbn. exact Hlog.
  - destruct Hg as ((_ & _ & _ & _ & Hself & Hlog) & _).
    unfold session_close. rewrite Hself. cbn. exact Hlog.
Qed.

End GatherTimestamps.
